(** * pion/quic wrapper: the session facade and its configuration builders

    A shallow embedding of [internal/wrapper/quic.go].  The package is glue
    around an external QUIC engine (quic-go): it derives the TLS and engine
    parameters from a [Config], hands them to the engine, and maps a few of
    the engine's answers.  The engine is not part of the package, so the
    wrapper's operations are embedded as programs that issue engine calls
    ([Prog]) and are run against an arbitrary engine. *)

From Stdlib Require Import ZArith NArith QArith List String Ascii Bool Lia.
Import ListNotations.

Local Close Scope Q_scope.
Local Open Scope Z_scope.
Local Open Scope string_scope.

(** ** Go library functions and values used by the package *)

Module strings.

(** [strings.HasPrefix(s, prefix)]:
    [len(s) >= len(prefix) && s[:len(prefix)] == prefix]. *)
Definition HasPrefix (s prefix : string) : bool :=
  (length prefix <=? length s)%nat
  && String.eqb (substring 0 (length prefix) s) prefix.

End strings.

Module fmt.

(** The digit table of the formatter, [ldigits = "0123456789abcdefx"]. *)
Definition ldigits : string := "0123456789abcdefx".

(** [digits[i]]; the formatter only indexes the table below 17. *)
Definition digitAt (i : N) : ascii :=
  match String.get (N.to_nat i) ldigits with
  | Some c => c
  | None => "0"%char
  end.

(** The base-16 loop of [fmtInteger],
    [for u >= 16 { i--; buf[i] = digits[u&0xF]; u >>= 4 }],
    which fills the buffer from its end.  [fuel] bounds the iterations. *)
Fixpoint hexLoop (fuel : nat) (u : N) (buf : string) : N * string :=
  match fuel with
  | O => (u, buf)
  | S fuel' =>
      if (16 <=? u)%N
      then hexLoop fuel' (N.shiftr u 4) (String (digitAt (N.land u 15)) buf)
      else (u, buf)
  end.

(** [Sprintf("%#x", u)] for an unsigned integer: the loop, then the last
    digit [buf[i] = digits[u]], then the [0x] of the sharp flag.  The number
    of bits of [u] is enough fuel (lemma [hexLoop_exits] below). *)
Definition sharpX (u : N) : string :=
  let '(u', buf) := hexLoop (N.size_nat u) u "" in
  "0x" ++ String (digitAt u') buf.

End fmt.

Module time.

(** [time.Duration]: a count of nanoseconds. *)
Definition Duration : Type := Z.

Definition Nanosecond : Duration := 1.
Definition Microsecond : Duration := 1000 * Nanosecond.
Definition Millisecond : Duration := 1000 * Microsecond.
Definition Second : Duration := 1000 * Millisecond.

End time.

Module context.

(** A context as far as the package uses one: whether a deadline is set, and
    how far it lies from the moment the context was made. *)
Record Context : Type := { Deadline : option time.Duration }.

Definition Background : Context := {| Deadline := None |}.

(** [context.WithTimeout(parent, d)]: the deadline is [d] from now unless
    the parent's deadline is earlier.  The cancel function that comes with
    it only releases the timer. *)
Definition WithTimeout (parent : Context) (d : time.Duration) : Context :=
  {| Deadline := match Deadline parent with
                 | None => Some d
                 | Some p => Some (Z.min p d)
                 end |}.

End context.

Module x509.

(** [x509.Certificate]: the DER encoding [Raw], and of the parsed fields
    the raw subject and issuer. *)
Record Certificate : Type := {
  Raw : list Byte.byte;
  RawSubject : list Byte.byte;
  RawIssuer : list Byte.byte
}.

End x509.

Module crypto.

(** [crypto.PrivateKey] is an empty interface: [None] is the nil interface,
    [Some] carries the key material. *)
Definition PrivateKey : Type := option (list Byte.byte).

End crypto.

Module tls.

Definition VersionTLS10 : Z := 0x0301.
Definition VersionTLS11 : Z := 0x0302.
Definition VersionTLS12 : Z := 0x0303.
Definition VersionTLS13 : Z := 0x0304.

Inductive ClientAuthType : Type :=
| NoClientCert
| RequestClientCert
| RequireAnyClientCert
| VerifyClientCertIfGiven
| RequireAndVerifyClientCert.

(** [requiresClientCert] of crypto/tls: the policies under which a server
    aborts the handshake when the client presents no certificate. *)
Definition requiresClientCert (c : ClientAuthType) : bool :=
  match c with
  | RequireAnyClientCert | RequireAndVerifyClientCert => true
  | _ => false
  end.

(** [tls.Certificate]: the chain, leaf first, and its private key. *)
Record Certificate : Type := {
  Certificate_chain : list (list Byte.byte);
  PrivateKey : crypto.PrivateKey
}.

(** [tls.Config], the fields the package sets and [MaxVersion], which it
    leaves at zero (no upper bound). *)
Record Config : Type := {
  MinVersion : Z;
  MaxVersion : Z;
  InsecureSkipVerify : bool;
  ClientAuth : ClientAuthType;
  Certificates : list Certificate;
  NextProtos : list string
}.

End tls.

Module io.

(** [io.EOF = errors.New("EOF")]. *)
Definition EOF_text : string := "EOF".

End io.

Module net.

(** [net.Addr]: the network name and the printed address. *)
Record Addr : Type := { Network : string; String_ : string }.

(** [net.Conn] as far as the package queries it: the answer of
    [RemoteAddr()], a nil interface when the connection has no remote
    address, and of [LocalAddr()]. *)
Record Conn : Type := {
  RemoteAddr : option Addr;
  LocalAddr : option Addr
}.

(** [net.PacketConn]: the packet connections of this development are the
    conduits the package lays over a [Conn]. *)
Record PacketConn : Type := { carrier : Conn }.

End net.

(** ** The QUIC engine, as the package sees it *)

Module quic.

(** [quic.Config], the fields the package sets. *)
Record Config : Type := {
  MaxIncomingStreams : Z;
  MaxIncomingUniStreams : Z;
  MaxStreamReceiveWindow : Z;
  MaxConnectionReceiveWindow : Z;
  KeepAlivePeriod : time.Duration
}.

(** Handles of engine objects. *)
Definition Conn : Type := nat.
Definition Stream : Type := nat.
Definition ReceiveStream : Type := nat.
Definition Listener : Type := nat.

(** [quic.ApplicationErrorCode] is a [uint64]. *)
Definition ApplicationErrorCode (code : N) : N := (code mod 2 ^ 64)%N.

Definition getRole (remote : bool) : string :=
  if remote then "remote" else "local".

(** The error values the engine hands back.  [ApplicationError] is the
    engine's record of a connection closed by the application, on this side
    ([Remote = false]) or by the peer ([Remote = true]);
    [DeadlineExceeded] is [context.DeadlineExceeded]; [OtherError] is any
    other error value, known by its text. *)
Inductive Error : Type :=
| ApplicationError (Remote : bool) (ErrorCode : N) (ErrorMessage : string)
| DeadlineExceeded
| OtherError (text : string).

(** The [Error()] method.  For an application error the engine renders
    [Sprintf("Application error %#x (%s)", code, role)], followed by
    [": " + message] when the message is not empty. *)
Definition Error_text (e : Error) : string :=
  match e with
  | ApplicationError remote code msg =>
      let head :=
        "Application error " ++ fmt.sharpX code ++ " (" ++ getRole remote ++ ")" in
      if (length msg =? 0)%nat then head else head ++ ": " ++ msg
  | DeadlineExceeded => "context deadline exceeded"
  | OtherError text => text
  end.

(** The entry points of the engine that the package calls, with their
    arguments. *)
Inductive Call : Type :=
| Dial (ctx : context.Context) (c : net.PacketConn) (addr : net.Addr)
       (tlsConf : tls.Config) (conf : Config)
| DialAddr (ctx : context.Context) (addr : string)
       (tlsConf : tls.Config) (conf : Config)
| Listen (c : net.PacketConn) (tlsConf : tls.Config) (conf : Config)
| ListenAddr (addr : string) (tlsConf : tls.Config) (conf : Config)
| Conn_AcceptStream (c : Conn) (ctx : context.Context)
| Conn_AcceptUniStream (c : Conn) (ctx : context.Context)
| Conn_CloseWithError (c : Conn) (code : N) (reason : string).

(** What each entry point returns: a value or an error, and for
    [CloseWithError] an error or nil. *)
Definition Resp (c : Call) : Type :=
  match c with
  | Dial _ _ _ _ _ | DialAddr _ _ _ _ => (Conn + Error)%type
  | Listen _ _ _ | ListenAddr _ _ _ => (Listener + Error)%type
  | Conn_AcceptStream _ _ => (Stream + Error)%type
  | Conn_AcceptUniStream _ _ => (ReceiveStream + Error)%type
  | Conn_CloseWithError _ _ _ => option Error
  end.

(** An engine: some state, and an answer to every call. *)
Record Engine : Type := {
  State : Type;
  answer : forall c : Call, State -> Resp c * State
}.

(** The context a call waits under, if it takes one. *)
Definition contextOf (c : Call) : option context.Context :=
  match c with
  | Dial ctx _ _ _ _ | DialAddr ctx _ _ _ => Some ctx
  | Conn_AcceptStream _ ctx | Conn_AcceptUniStream _ ctx => Some ctx
  | Listen _ _ _ | ListenAddr _ _ _ | Conn_CloseWithError _ _ _ => None
  end.

(** The answer of a call whose context expired: the context's error. *)
Definition expired (c : Call) : option (Resp c) :=
  match c return option (Resp c) with
  | Dial _ _ _ _ _ | DialAddr _ _ _ _ => Some (inr DeadlineExceeded)
  | Conn_AcceptStream _ _ => Some (inr DeadlineExceeded)
  | Conn_AcceptUniStream _ _ => Some (inr DeadlineExceeded)
  | Listen _ _ _ | ListenAddr _ _ _ | Conn_CloseWithError _ _ _ => None
  end.

(** When the engine would have an answer to a call, counted from the call,
    and which; [None] when it never has one. *)
Definition Schedule : Type := forall c : Call, option (time.Duration * Resp c).

(** A wait either ends after some time with a value or never ends. *)
Inductive Waited (A : Type) : Type :=
| Done (elapsed : time.Duration) (a : A)
| Blocked.
Arguments Done {A} elapsed a.
Arguments Blocked {A}.

(** A call under a context with a deadline returns the engine's answer if
    it comes by the deadline and the context's error at the deadline
    otherwise; a call without a deadline waits for the answer. *)
Definition await (sch : Schedule) (c : Call) : Waited (Resp c) :=
  match contextOf c, expired c with
  | Some {| context.Deadline := Some d |}, Some late =>
      match sch c with
      | Some (t, r) => if Z.leb t d then Done t r else Done d late
      | None => Done d late
      end
  | _, _ =>
      match sch c with
      | Some (t, r) => Done t r
      | None => Blocked
      end
  end.

End quic.

(** ** Programs of the package *)

(** A run-time panic.  The only one the package can raise itself is the
    dereference of a nil pointer. *)
Inductive panic : Type :=
| nilPointerDereference.

(** The result of code that makes no engine call: a value or a panic. *)
Inductive outcome (A : Type) : Type :=
| Returned (a : A)
| Panicked (p : panic).
Arguments Returned {A} a.
Arguments Panicked {A} p.

(** Reading through a pointer. *)
Definition deref {A : Type} (ptr : option A) : outcome A :=
  match ptr with
  | Some a => Returned a
  | None => Panicked nilPointerDereference
  end.

Definition outcome_bind {A B : Type} (o : outcome A) (f : A -> outcome B)
  : outcome B :=
  match o with
  | Returned a => f a
  | Panicked p => Panicked p
  end.

(** Code of the package: it returns, panics, or calls the engine and goes
    on with the engine's answer. *)
Inductive Prog (R : Type) : Type :=
| Ret (r : R)
| Panic (p : panic)
| Do (c : quic.Call) (k : quic.Resp c -> Prog R).
Arguments Ret {R} r.
Arguments Panic {R} p.
Arguments Do {R} c k.

Fixpoint bind {A B : Type} (m : Prog A) (f : A -> Prog B) : Prog B :=
  match m with
  | Ret a => f a
  | Panic p => Panic p
  | Do c k => Do c (fun r => bind (k r) f)
  end.

Definition call (c : quic.Call) : Prog (quic.Resp c) := Do c Ret.

Definition eval {A : Type} (o : outcome A) : Prog A :=
  match o with
  | Returned a => Ret a
  | Panicked p => Panic p
  end.

Declare Scope prog_scope.
Delimit Scope prog_scope with prog.
Notation "x <- m ;; k" := (bind m (fun x => k))
  (at level 61, m at next level, right associativity) : prog_scope.
Notation "x <~ o ;; k" := (outcome_bind o (fun x => k))
  (at level 61, o at next level, right associativity) : prog_scope.

(** Running a program against an engine: the outcome, the calls made in
    order, and the engine's state afterwards. *)
Fixpoint exec {R : Type} (E : quic.Engine) (p : Prog R) (st : quic.State E)
  : outcome R * list quic.Call * quic.State E :=
  match p with
  | Ret r => (Returned r, [], st)
  | Panic x => (Panicked x, [], st)
  | Do c k =>
      let (r, st1) := quic.answer E c st in
      let '(o, calls, st2) := exec E (k r) st1 in
      (o, c :: calls, st2)
  end.

(** Running a program against the clock: every call waits as [quic.await]
    says, the package's own steps take no time. *)
Fixpoint timed {R : Type} (sch : quic.Schedule) (p : Prog R)
  : quic.Waited (outcome R) :=
  match p with
  | Ret r => quic.Done 0 (Returned r)
  | Panic x => quic.Done 0 (Panicked x)
  | Do c k =>
      match quic.await sch c with
      | quic.Blocked => quic.Blocked
      | quic.Done t r =>
          match timed sch (k r) with
          | quic.Blocked => quic.Blocked
          | quic.Done t' o => quic.Done (t + t') o
          end
      end
  end.

(** ** Package wrapper *)

Module wrapper.

Local Open Scope prog_scope.

(** The values of Go's [error] interface that meet in this package: the
    package's own sentinel, [io.EOF], the errors the engine hands back, and
    whatever else a caller passes in, known by its text.  The sentinel is
    made by [errors.New] and held in an unexported variable, so no value
    that comes from the engine is identical to it. *)
Inductive error : Type :=
| errClientWithoutRemoteAddress
| io_EOF
| engineError (e : quic.Error)
| otherError (text : string).

(** The [Error()] method. *)
Definition Error (e : error) : string :=
  match e with
  | errClientWithoutRemoteAddress => "quic: creating client without remote address"
  | io_EOF => io.EOF_text
  | engineError e => quic.Error_text e
  | otherError text => text
  end.

(** Config represents the configuration of a Quic session. *)
Record Config : Type := {
  Certificate : option x509.Certificate;
  PrivateKey : crypto.PrivateKey;
  SkipVerify : bool
}.

(** Conversion of an untyped constant to an integer type: its numerator,
    once in lowest terms.  Go accepts the conversion only when the constant
    is an integer ([defaultWindow_integral] below). *)
Definition intConst (q : Q) : Z := Qnum (Qred q).

Definition getDefaultQuicConfig : quic.Config :=
  {| quic.MaxIncomingStreams := 1000;
     quic.MaxIncomingUniStreams := 1000;
     quic.MaxStreamReceiveWindow := 3 * Z.shiftl 1 20;
     quic.MaxConnectionReceiveWindow :=
       intConst (Qmult (45 # 10) (inject_Z (Z.shiftl 1 20)));
     quic.KeepAlivePeriod := 15 * time.Second |}.

(** A Session is a QUIC connection between two peers. *)
Record Session : Type := { Session_s : quic.Conn }.

(** Modelled from the spec: the type [Stream] is declared in another file
    of the package; a stream facade is a thin wrapper that owns one engine
    stream handle, here the field [s] of the literal [&Stream{s: str}]. *)
Record Stream : Type := { Stream_s : quic.Stream }.

(** Modelled from the spec: the type [ReadableStream] is declared in
    another file of the package; it owns one receive-only engine stream. *)
Record ReadableStream : Type := { ReadableStream_s : quic.ReceiveStream }.

(** Modelled from the spec: the type [Listener] is declared in another file
    of the package; it owns the engine's listener, the field [l]. *)
Record Listener : Type := { Listener_l : quic.Listener }.

(** Modelled from the spec: [newFakePacketConn] is defined in another file
    of the package; the packet conduit wraps the connection it is laid over
    and does not own it. *)
Definition newFakePacketConn (conn : net.Conn) : net.PacketConn :=
  {| net.carrier := conn |}.

(** The composite literal is evaluated field by field: [config.SkipVerify]
    reads through [config], [config.Certificate.Raw] through the
    certificate pointer. *)
Definition getTLSConfig (config : option Config) : outcome tls.Config :=
  c <~ deref config ;;
  let skip := SkipVerify c in
  cert <~ deref (Certificate c) ;;
  Returned
    {| tls.MinVersion := tls.VersionTLS13;
       tls.MaxVersion := 0;
       tls.InsecureSkipVerify := skip;
       tls.ClientAuth := tls.RequireAnyClientCert;
       tls.Certificates :=
         [ {| tls.Certificate_chain := [ x509.Raw cert ];
              tls.PrivateKey := PrivateKey c |} ];
       tls.NextProtos := [ "pion-quic" ] |}.

(** Client establishes a QUIC session over an existing conn. *)
Definition Client (conn : net.Conn) (config : option Config)
  : Prog (option Session * option error) :=
  match net.RemoteAddr conn with
  | None => Ret (None, Some errClientWithoutRemoteAddress)
  | Some rAddr =>
      let ctx := context.WithTimeout context.Background (10 * time.Second) in
      let pconn := newFakePacketConn conn in
      tlsConf <- eval (getTLSConfig config) ;;
      r <- call (quic.Dial ctx pconn rAddr tlsConf getDefaultQuicConfig) ;;
      match r with
      | inr err => Ret (None, Some (engineError err))
      | inl s => Ret (Some {| Session_s := s |}, None)
      end
  end.

(** Dial dials the address over quic. *)
Definition Dial (addr : string) (config : option Config)
  : Prog (option Session * option error) :=
  let ctx := context.WithTimeout context.Background (10 * time.Second) in
  tlsConf <- eval (getTLSConfig config) ;;
  r <- call (quic.DialAddr ctx addr tlsConf getDefaultQuicConfig) ;;
  match r with
  | inr err => Ret (None, Some (engineError err))
  | inl s => Ret (Some {| Session_s := s |}, None)
  end.

(** Server creates a listener for incoming QUIC sessions. *)
Definition Server (conn : net.Conn) (config : option Config)
  : Prog (option Listener * option error) :=
  let pconn := newFakePacketConn conn in
  tlsConf <- eval (getTLSConfig config) ;;
  r <- call (quic.Listen pconn tlsConf getDefaultQuicConfig) ;;
  match r with
  | inr err => Ret (None, Some (engineError err))
  | inl l => Ret (Some {| Listener_l := l |}, None)
  end.

(** Listen listens on the address over quic. *)
Definition Listen (addr : string) (config : option Config)
  : Prog (option Listener * option error) :=
  tlsConf <- eval (getTLSConfig config) ;;
  r <- call (quic.ListenAddr addr tlsConf getDefaultQuicConfig) ;;
  match r with
  | inr err => Ret (None, Some (engineError err))
  | inl l => Ret (Some {| Listener_l := l |}, None)
  end.

(** AcceptStream accepts an incoming stream. *)
Definition AcceptStream (s : Session)
  : Prog (option Stream * option error) :=
  let ctx := context.WithTimeout context.Background (10 * time.Second) in
  r <- call (quic.Conn_AcceptStream (Session_s s) ctx) ;;
  match r with
  | inr err =>
      if strings.HasPrefix (Error (engineError err)) "Application error 0x0"
      then Ret (None, None) (* Errorcode == 0 implies session is closed without error *)
      else Ret (None, Some (engineError err))
  | inl str => Ret (Some {| Stream_s := str |}, None)
  end.

(** AcceptUniStream accepts an incoming unidirectional stream and returns a
    ReadableStream. *)
Definition AcceptUniStream (s : Session)
  : Prog (option ReadableStream * option error) :=
  let ctx := context.WithTimeout context.Background (10 * time.Second) in
  r <- call (quic.Conn_AcceptUniStream (Session_s s) ctx) ;;
  match r with
  | inr err =>
      if strings.HasPrefix (Error (engineError err)) "Application error 0x0"
      then Ret (None, None) (* Errorcode == 0 implies session is closed without error *)
      else Ret (None, Some (engineError err))
  | inl str => Ret (Some {| ReadableStream_s := str |}, None)
  end.

(** CloseWithError closes the connection with an error.  [code] is a
    [uint16]; [err] is nil ([None]) or an error value. *)
Definition CloseWithError (s : Session) (code : N) (err : option error)
  : Prog (option error) :=
  let e := match err with
           | Some err' => Error err'
           | None => "nil"
           end in
  r <- call (quic.Conn_CloseWithError (Session_s s)
               (quic.ApplicationErrorCode code) e) ;;
  Ret (option_map engineError r).

(** Close the connection. *)
Definition Close (s : Session) : Prog (option error) :=
  CloseWithError s 0 (Some io_EOF).

End wrapper.

(** ** Notions used to state the properties *)

(** The context every bounded wait of the package runs under. *)
Definition tenSeconds : context.Context :=
  context.WithTimeout context.Background (10 * time.Second).

(** A session, a connection with a remote address and one without, for the
    concrete runs below. *)
Definition aSession : wrapper.Session := {| wrapper.Session_s := 1%nat |}.
Definition anAddr : net.Addr :=
  {| net.Network := "udp"; net.String_ := "192.0.2.1:4433" |}.
Definition connWithAddr : net.Conn :=
  {| net.RemoteAddr := Some anAddr; net.LocalAddr := None |}.
Definition connWithoutAddr : net.Conn :=
  {| net.RemoteAddr := None; net.LocalAddr := None |}.

(** The engine's errors for a connection closed with code 0 by the peer and
    by this side ([Close] sends the reason [EOF]). *)
Definition closedByPeer : quic.Error := quic.ApplicationError true 0 "EOF".
Definition closedLocally : quic.Error := quic.ApplicationError false 0 "EOF".

(** Two certificates with the same encoding, and configurations made of
    them. *)
Definition aCertificate : x509.Certificate :=
  {| x509.Raw := [Byte.x30; Byte.x82; Byte.x01; Byte.x0a];
     x509.RawSubject := [Byte.x30; Byte.x00];
     x509.RawIssuer := [Byte.x30; Byte.x00] |}.
Definition sameEncoding : x509.Certificate :=
  {| x509.Raw := [Byte.x30; Byte.x82; Byte.x01; Byte.x0a];
     x509.RawSubject := [];
     x509.RawIssuer := [] |}.
Definition aConfig : wrapper.Config :=
  {| wrapper.Certificate := Some aCertificate;
     wrapper.PrivateKey := Some [Byte.x2a];
     wrapper.SkipVerify := true |}.
Definition sameConfig : wrapper.Config :=
  {| wrapper.Certificate := Some sameEncoding;
     wrapper.PrivateKey := Some [Byte.x2a];
     wrapper.SkipVerify := true |}.
Definition noCertificate : wrapper.Config :=
  {| wrapper.Certificate := None;
     wrapper.PrivateKey := Some [Byte.x2a];
     wrapper.SkipVerify := false |}.

(** The TLS parameter set of [aConfig]. *)
Definition aTLSConfig : tls.Config :=
  {| tls.MinVersion := 0x0304;
     tls.MaxVersion := 0;
     tls.InsecureSkipVerify := true;
     tls.ClientAuth := tls.RequireAnyClientCert;
     tls.Certificates :=
       [ {| tls.Certificate_chain := [ [Byte.x30; Byte.x82; Byte.x01; Byte.x0a] ];
            tls.PrivateKey := Some [Byte.x2a] |} ];
     tls.NextProtos := [ "pion-quic" ] |}.

(** What the engine's answer to a dial becomes. *)
Definition sessionOf (r : quic.Conn + quic.Error)
  : option wrapper.Session * option wrapper.error :=
  match r with
  | inl s => (Some {| wrapper.Session_s := s |}, None)
  | inr err => (None, Some (wrapper.engineError err))
  end.

Definition listenerOf (r : quic.Listener + quic.Error)
  : option wrapper.Listener * option wrapper.error :=
  match r with
  | inl l => (Some {| wrapper.Listener_l := l |}, None)
  | inr err => (None, Some (wrapper.engineError err))
  end.

(** The reason string CloseWithError sends. *)
Definition reasonOf (err : option wrapper.error) : string :=
  match err with
  | None => "nil"
  | Some e => wrapper.Error e
  end.

(** An engine without state that answers every call from a fixed table. *)
Definition scripted (table : forall c : quic.Call, quic.Resp c) : quic.Engine :=
  {| quic.State := unit;
     quic.answer := fun c st => (table c, st) |}.

(** The table of an engine on which every call fails with [e]. *)
Definition failing (e : quic.Error) (c : quic.Call) : quic.Resp c :=
  match c return quic.Resp c with
  | quic.Dial _ _ _ _ _ | quic.DialAddr _ _ _ _ => inr e
  | quic.Listen _ _ _ | quic.ListenAddr _ _ _ => inr e
  | quic.Conn_AcceptStream _ _ => inr e
  | quic.Conn_AcceptUniStream _ _ => inr e
  | quic.Conn_CloseWithError _ _ _ => Some e
  end.

(** The table of an engine on which every call succeeds, with handle [h]. *)
Definition succeeding (h : nat) (c : quic.Call) : quic.Resp c :=
  match c return quic.Resp c with
  | quic.Dial _ _ _ _ _ | quic.DialAddr _ _ _ _ => inl h
  | quic.Listen _ _ _ | quic.ListenAddr _ _ _ => inl h
  | quic.Conn_AcceptStream _ _ => inl h
  | quic.Conn_AcceptUniStream _ _ => inl h
  | quic.Conn_CloseWithError _ _ _ => None
  end.

(** The schedule of an engine that never has an answer. *)
Definition silent : quic.Schedule := fun _ => None.

(** The result of a bounded wait that ran into its deadline. *)
Definition timedOut {A : Type} : outcome (option A * option wrapper.error) :=
  Returned (None, Some (wrapper.engineError quic.DeadlineExceeded)).

(** The schedule of an engine that has the answers of [table] after [d]. *)
Definition answering (d : time.Duration) (table : forall c : quic.Call, quic.Resp c)
  : quic.Schedule :=
  fun c => Some (d, table c).

(** The engine's error for a connection that the peer closed with
    application error code 0. *)
Definition peerClosedWithoutError (e : quic.Error) : bool :=
  match e with
  | quic.ApplicationError true 0%N _ => true
  | _ => false
  end.

(** The engine errors that stand for a closure with application error code
    0, by either side, together with the foreign errors whose text happens
    to begin like one. *)
Definition closedWithoutError (e : quic.Error) : bool :=
  match e with
  | quic.ApplicationError _ code _ => (code =? 0)%N
  | quic.DeadlineExceeded => false
  | quic.OtherError text => strings.HasPrefix text "Application error 0x0"
  end.

(** The parameter sets a call hands to the engine. *)
Definition paramsOf (c : quic.Call) : option (tls.Config * quic.Config) :=
  match c with
  | quic.Dial _ _ _ t q | quic.DialAddr _ _ t q => Some (t, q)
  | quic.Listen _ t q | quic.ListenAddr _ t q => Some (t, q)
  | _ => None
  end.

(** A configuration that is nil or whose certificate is nil. *)
Definition lacksCertificate (config : option wrapper.Config) : bool :=
  match config with
  | None => true
  | Some c =>
      match wrapper.Certificate c with
      | None => true
      | Some _ => false
      end
  end.

(** What the TLS builder reads of a configuration: the encoded
    certificate, the key and the flag. *)
Definition builderInput (config : option wrapper.Config)
  : option (option (list Byte.byte) * crypto.PrivateKey * bool) :=
  match config with
  | None => None
  | Some c =>
      Some (option_map x509.Raw (wrapper.Certificate c),
            wrapper.PrivateKey c, wrapper.SkipVerify c)
  end.

(** A wait that ends within [d]. *)
Definition within {A : Type} (d : time.Duration) (w : quic.Waited A) : Prop :=
  match w with
  | quic.Done t _ => t <= d
  | quic.Blocked => False
  end.

(** The calls of a run, and its outcome. *)
Definition callsOf {R S : Type} (run : outcome R * list quic.Call * S)
  : list quic.Call := snd (fst run).
Definition outcomeOf {R S : Type} (run : outcome R * list quic.Call * S)
  : outcome R := fst (fst run).

(** The calls that reach the engine when each of the four construction
    operations is run, on its own, from the state [st]. *)
Definition constructionCalls (E : quic.Engine) (st : quic.State E)
    (conn : net.Conn) (addr : string) (config : option wrapper.Config)
  : list quic.Call :=
  callsOf (exec E (wrapper.Client conn config) st)
  ++ callsOf (exec E (wrapper.Dial addr config) st)
  ++ callsOf (exec E (wrapper.Server conn config) st)
  ++ callsOf (exec E (wrapper.Listen addr config) st).

(** The calls that reach the engine when each of the four operations with
    a bounded wait is run, on its own, from the state [st]. *)
Definition boundedWaitCalls (E : quic.Engine) (st : quic.State E)
    (s : wrapper.Session) (conn : net.Conn) (addr : string)
    (config : option wrapper.Config)
  : list quic.Call :=
  callsOf (exec E (wrapper.Client conn config) st)
  ++ callsOf (exec E (wrapper.Dial addr config) st)
  ++ callsOf (exec E (wrapper.AcceptStream s) st)
  ++ callsOf (exec E (wrapper.AcceptUniStream s) st).

(** ** Opening streams *)

(** The entry points of an engine connection that open streams; they take
    no context. *)
Module conn.

(** Handle of a send-only engine stream. *)
Definition SendStream : Type := nat.

Inductive Call : Type :=
| OpenStream (c : quic.Conn)
| OpenUniStream (c : quic.Conn).

Definition Resp (c : Call) : Type :=
  match c with
  | OpenStream _ => (quic.Stream + quic.Error)%type
  | OpenUniStream _ => (SendStream + quic.Error)%type
  end.

Record Engine : Type := {
  State : Type;
  answer : forall c : Call, State -> Resp c * State
}.

End conn.

(** Code of the package that opens streams: it returns or calls the engine
    and goes on with the answer. *)
Inductive OpenProg (R : Type) : Type :=
| ORet (r : R)
| ODo (c : conn.Call) (k : conn.Resp c -> OpenProg R).
Arguments ORet {R} r.
Arguments ODo {R} c k.

Fixpoint execOpen {R : Type} (E : conn.Engine) (p : OpenProg R) (st : conn.State E)
  : R * list conn.Call * conn.State E :=
  match p with
  | ORet r => (r, [], st)
  | ODo c k =>
      let (a, st1) := conn.answer E c st in
      let '(r, calls, st2) := execOpen E (k a) st1 in
      (r, c :: calls, st2)
  end.

(** Modelled from the spec: the type [WritableStream] is declared in
    another file of the package; it owns one send-only engine stream. *)
Record WritableStream : Type := { WritableStream_s : conn.SendStream }.

(** OpenStream opens a new stream. *)
Definition OpenStream (s : wrapper.Session)
  : OpenProg (option wrapper.Stream * option wrapper.error) :=
  ODo (conn.OpenStream (wrapper.Session_s s)) (fun r =>
    match r with
    | inr err => ORet (None, Some (wrapper.engineError err))
    | inl str => ORet (Some {| wrapper.Stream_s := str |}, None)
    end).

(** OpenUniStream opens and returns a new WritableStream. *)
Definition OpenUniStream (s : wrapper.Session)
  : OpenProg (option WritableStream * option wrapper.error) :=
  ODo (conn.OpenUniStream (wrapper.Session_s s)) (fun r =>
    match r with
    | inr err => ORet (None, Some (wrapper.engineError err))
    | inl str => ORet (Some {| WritableStream_s := str |}, None)
    end).

(** An engine on which opening a stream fails with [e]. *)
Definition refusing (e : quic.Error) : conn.Engine :=
  {| conn.State := unit;
     conn.answer := fun c st =>
       (match c return conn.Resp c with
        | conn.OpenStream _ => inr e
        | conn.OpenUniStream _ => inr e
        end, st) |}.

(** ** Further notions *)

(** A Go result pair of which exactly one half is nil. *)
Definition exactlyOne {A : Type} (r : option A * option wrapper.error) : bool :=
  match r with
  | (Some _, None) | (None, Some _) => true
  | _ => false
  end.

(** What the engine of the peer reports once the closure signal of a
    CloseWithError call has arrived: an application error of the remote
    side with the code and the reason of the call. *)
Definition closureSeenByPeer (c : quic.Call) : option quic.Error :=
  match c with
  | quic.Conn_CloseWithError _ code reason =>
      Some (quic.ApplicationError true code reason)
  | _ => None
  end.

(** What can be read back from a TLS parameter set: the encoded leaf of
    its first certificate, that certificate's key, and the flag. *)
Definition readBack (t : tls.Config)
  : option (option (list Byte.byte) * crypto.PrivateKey * bool) :=
  match tls.Certificates t with
  | cert :: _ =>
      match tls.Certificate_chain cert with
      | raw :: _ => Some (Some raw, tls.PrivateKey cert, tls.InsecureSkipVerify t)
      | [] => None
      end
  | [] => None
  end.

(** A configuration with another certificate encoding than [aConfig]. *)
Definition otherConfig : wrapper.Config :=
  {| wrapper.Certificate :=
       Some {| x509.Raw := [Byte.x30; Byte.x82; Byte.x02; Byte.x0b];
               x509.RawSubject := [Byte.x30; Byte.x00];
               x509.RawIssuer := [Byte.x30; Byte.x00] |};
     wrapper.PrivateKey := Some [Byte.x2a];
     wrapper.SkipVerify := true |}.

(** ** Properties of the library functions *)

Lemma HasPrefix_empty (s : string) : strings.HasPrefix s "" = true.
Proof.
  unfold strings.HasPrefix; destruct s; reflexivity.
Qed.

Lemma HasPrefix_cons (c d : ascii) (s p : string) :
  strings.HasPrefix (String c s) (String d p)
  = Ascii.eqb c d && strings.HasPrefix s p.
Proof.
  unfold strings.HasPrefix; cbn [length substring String.eqb Nat.leb].
  destruct (Ascii.eqb c d); [ reflexivity | ].
  now rewrite andb_false_r.
Qed.

Lemma HasPrefix_app (a s p : string) :
  strings.HasPrefix (a ++ s) (a ++ p) = strings.HasPrefix s p.
Proof.
  induction a as [| c a IH]; [ reflexivity | ].
  cbn [append]; rewrite HasPrefix_cons, Ascii.eqb_refl; exact IH.
Qed.

Lemma append_assoc (a b c : string) : (a ++ b) ++ c = a ++ (b ++ c).
Proof.
  induction a as [| x a IH]; cbn [append]; [ reflexivity | now rewrite IH ].
Qed.

Lemma size_nat_shiftr4 (u : N) (n : nat) :
  (16 <= u)%N -> (N.size_nat u <= S n)%nat ->
  (N.size_nat (N.shiftr u 4) <= n)%nat.
Proof.
  intros H16 Hs.
  destruct u as [| p]; [ lia | ].
  destruct p as [p | p |]; try destruct p as [p | p |];
    try destruct p as [p | p |]; try destruct p as [p | p |];
    cbn in *; lia.
Qed.

(** With the bits of the number as fuel the loop stops on a last digit
    below 16, and that digit is zero only when the number is. *)
Lemma hexLoop_exits (fuel : nat) : forall (u : N) (buf : string),
  (N.size_nat u <= fuel)%nat ->
  (fst (fmt.hexLoop fuel u buf) < 16)%N
  /\ (u <> 0%N -> fst (fmt.hexLoop fuel u buf) <> 0%N).
Proof.
  induction fuel as [| fuel IH]; intros u buf Hs.
  - destruct u; cbn in *; [ split; [ lia | congruence ] | ].
    destruct p; cbn in Hs; lia.
  - cbn [fmt.hexLoop]. destruct (N.leb_spec 16 u) as [H16 | H16].
    + destruct (IH (N.shiftr u 4) (String (fmt.digitAt (N.land u 15)) buf)
                  (size_nat_shiftr4 u fuel H16 Hs)) as [Hlt Hnz].
      split; [ exact Hlt | ].
      intros _. apply Hnz.
      rewrite N.shiftr_div_pow2. change (2 ^ 4)%N with 16%N.
      intros Hz. apply N.div_small_iff in Hz; lia.
    + cbn [fst]. split; [ exact H16 | auto ].
Qed.

Lemma digitAt_zero_iff (d : N) :
  (d < 16)%N -> (fmt.digitAt d = "0"%char <-> d = 0%N).
Proof.
  intros Hd.
  assert (Hcases : In d [0;1;2;3;4;5;6;7;8;9;10;11;12;13;14;15]%N).
  { cbn. lia. }
  cbn in Hcases.
  repeat (destruct Hcases as [<- | Hcases];
          [ vm_compute; split; intro; (reflexivity || discriminate) | ]).
  contradiction.
Qed.

(** [%#x] always renders [0x], a first digit and the rest, and the first
    digit is ['0'] exactly for the number zero. *)
Lemma sharpX_shape (u : N) :
  exists (c : ascii) (rest : string),
    fmt.sharpX u = "0x" ++ String c rest /\ (c = "0"%char <-> u = 0%N).
Proof.
  unfold fmt.sharpX.
  destruct (hexLoop_exits (N.size_nat u) u "" (le_n _)) as [Hlt Hnz].
  destruct (fmt.hexLoop (N.size_nat u) u "") as [u' buf] eqn:E; cbn [fst] in *.
  exists (fmt.digitAt u'), buf; split; [ reflexivity | ].
  rewrite (digitAt_zero_iff u' Hlt). split.
  - intros ->. destruct (N.eq_dec u 0) as [-> | Hu]; [ reflexivity | ].
    now elim (Hnz Hu).
  - intros ->. cbn in E. now inversion E.
Qed.

Example sharpX_0 : fmt.sharpX 0 = "0x0".
Proof. reflexivity. Qed.

Example sharpX_4096 : fmt.sharpX 4096 = "0x1000".
Proof. reflexivity. Qed.

Example sharpX_48879 : fmt.sharpX 48879 = "0xbeef".
Proof. reflexivity. Qed.

(** The engine's rendering of an application error begins with
    [Application error 0x0] exactly when its code is 0: codes are printed
    without leading zeros. *)
Lemma ApplicationError_prefix (remote : bool) (code : N) (msg : string) :
  strings.HasPrefix (quic.Error_text (quic.ApplicationError remote code msg))
                    "Application error 0x0"
  = (code =? 0)%N.
Proof.
  destruct (sharpX_shape code) as (c & rest & Hx & Hc).
  assert (Hhead : forall tail,
    strings.HasPrefix ("Application error " ++ fmt.sharpX code ++ tail)
                      "Application error 0x0" = (code =? 0)%N).
  { intros tail.
    change "Application error 0x0" with ("Application error " ++ "0x0").
    rewrite HasPrefix_app, Hx. cbn [append].
    rewrite !HasPrefix_cons, HasPrefix_empty. cbn [Ascii.eqb Bool.eqb andb].
    rewrite andb_true_r.
    destruct (N.eqb_spec code 0) as [H0 | H0].
    - apply Hc in H0; subst c; reflexivity.
    - apply Ascii.eqb_neq. intros Heq. apply H0, Hc. exact Heq. }
  cbn [quic.Error_text].
  destruct (length msg =? 0)%nat.
  - apply Hhead.
  - rewrite !append_assoc. apply Hhead.
Qed.

Lemma closedWithoutError_prefix (e : quic.Error) :
  strings.HasPrefix (wrapper.Error (wrapper.engineError e))
                    "Application error 0x0"
  = closedWithoutError e.
Proof.
  destruct e as [remote code msg | | text]; cbn [wrapper.Error closedWithoutError].
  - apply ApplicationError_prefix.
  - reflexivity.
  - reflexivity.
Qed.

(** ** Accepting streams *)

Lemma exec_AcceptStream (E : quic.Engine) (st : quic.State E) (s : wrapper.Session) :
  exec E (wrapper.AcceptStream s) st
  = let c := quic.Conn_AcceptStream (wrapper.Session_s s) tenSeconds in
    let (r, st') := quic.answer E c st in
    (Returned
       match r with
       | inl str => (Some {| wrapper.Stream_s := str |}, None)
       | inr e => if closedWithoutError e then (None, None)
                  else (None, Some (wrapper.engineError e))
       end, [c], st').
Proof.
  unfold wrapper.AcceptStream, call. cbn [exec bind]. cbv zeta.
  fold tenSeconds.
  destruct (quic.answer E _ st) as [[str | e] st']; [ reflexivity | ].
  rewrite closedWithoutError_prefix.
  destruct (closedWithoutError e); reflexivity.
Qed.

Lemma exec_AcceptUniStream (E : quic.Engine) (st : quic.State E) (s : wrapper.Session) :
  exec E (wrapper.AcceptUniStream s) st
  = let c := quic.Conn_AcceptUniStream (wrapper.Session_s s) tenSeconds in
    let (r, st') := quic.answer E c st in
    (Returned
       match r with
       | inl str => (Some {| wrapper.ReadableStream_s := str |}, None)
       | inr e => if closedWithoutError e then (None, None)
                  else (None, Some (wrapper.engineError e))
       end, [c], st').
Proof.
  unfold wrapper.AcceptUniStream, call. cbn [exec bind]. cbv zeta.
  fold tenSeconds.
  destruct (quic.answer E _ st) as [[str | e] st']; [ reflexivity | ].
  rewrite closedWithoutError_prefix.
  destruct (closedWithoutError e); reflexivity.
Qed.

(** C1 (amended).  When the engine's accept call fails with an error
    whose text begins with [Application error 0x0], AcceptStream and
    AcceptUniStream return (nil, nil).  These are the engine's application
    errors with code 0, whether the peer or this side closed the connection
    ([closedWithoutError], by [ApplicationError_prefix]), and any foreign
    error with such a text.  Every other error of the accept call is
    returned unchanged.  In both cases the engine is called once, under the
    ten-second context. *)
Theorem C1_accept_clean_end_on_code_zero :
  forall (E : quic.Engine) (st st' : quic.State E) (s : wrapper.Session)
         (e : quic.Error),
    (quic.answer E (quic.Conn_AcceptStream (wrapper.Session_s s) tenSeconds) st
       = (inr e, st') ->
     exec E (wrapper.AcceptStream s) st
       = (Returned (if closedWithoutError e then (None, None)
                    else (None, Some (wrapper.engineError e))),
          [quic.Conn_AcceptStream (wrapper.Session_s s) tenSeconds], st'))
    /\
    (quic.answer E (quic.Conn_AcceptUniStream (wrapper.Session_s s) tenSeconds) st
       = (inr e, st') ->
     exec E (wrapper.AcceptUniStream s) st
       = (Returned (if closedWithoutError e then (None, None)
                    else (None, Some (wrapper.engineError e))),
          [quic.Conn_AcceptUniStream (wrapper.Session_s s) tenSeconds], st'))
    /\
    closedWithoutError e
      = strings.HasPrefix (quic.Error_text e) "Application error 0x0"
    /\
    (forall (remote : bool) (code : N) (msg : string),
        e = quic.ApplicationError remote code msg ->
        (closedWithoutError e = true <-> code = 0%N)).
Proof.
  intros E st st' s e; split; [ | split; [ | split ] ].
  - intros Hans. rewrite exec_AcceptStream. cbv zeta. rewrite Hans. reflexivity.
  - intros Hans. rewrite exec_AcceptUniStream. cbv zeta. rewrite Hans. reflexivity.
  - symmetry. apply closedWithoutError_prefix.
  - intros remote code msg ->. cbn [closedWithoutError]. apply N.eqb_eq.
Qed.

Lemma C1_accept_clean_end_witness :
  exec (scripted (failing closedByPeer)) (wrapper.AcceptStream aSession) tt
    = (Returned (None, None),
       [quic.Conn_AcceptStream 1%nat tenSeconds], tt)
  /\
  exec (scripted (failing quic.DeadlineExceeded)) (wrapper.AcceptUniStream aSession) tt
    = (Returned (None, Some (wrapper.engineError quic.DeadlineExceeded)),
       [quic.Conn_AcceptUniStream 1%nat tenSeconds], tt).
Proof.
  split.
  - exact (proj1 (C1_accept_clean_end_on_code_zero
                    (scripted (failing closedByPeer)) tt tt aSession closedByPeer)
                 eq_refl).
  - exact (proj1 (proj2 (C1_accept_clean_end_on_code_zero
                           (scripted (failing quic.DeadlineExceeded)) tt tt aSession
                           quic.DeadlineExceeded))
                 eq_refl).
Defined.

(** Against C1 as worded: after this side closed the connection with code 0
    the engine's accept call reports an application error that is not a
    closure by the peer, and AcceptStream returns (nil, nil) instead of
    that error. *)
Lemma C1_counterexample_closed_locally :
  peerClosedWithoutError closedLocally = false
  /\ wrapper.Error (wrapper.engineError closedLocally)
     = "Application error 0x0 (local): EOF"
  /\ outcomeOf (exec (scripted (failing closedLocally))
                     (wrapper.AcceptStream aSession) tt)
     = Returned (None, None)
  /\ outcomeOf (exec (scripted (failing closedLocally))
                     (wrapper.AcceptStream aSession) tt)
     <> Returned (None, Some (wrapper.engineError closedLocally)).
Proof.
  repeat split; try reflexivity.
  vm_compute. discriminate.
Qed.

(** ** The configuration builders *)

(** The constant [4.5 * (1 << 20)] is an integer, so Go converts it. *)
Lemma defaultWindow_integral :
  Qden (Qred (Qmult (45 # 10) (inject_Z (Z.shiftl 1 20)))) = 1%positive.
Proof. reflexivity. Qed.

Lemma getTLSConfig_valid (cert : x509.Certificate) (key : crypto.PrivateKey)
      (skip : bool) :
  wrapper.getTLSConfig
    (Some {| wrapper.Certificate := Some cert;
             wrapper.PrivateKey := key;
             wrapper.SkipVerify := skip |})
  = Returned
      {| tls.MinVersion := tls.VersionTLS13;
         tls.MaxVersion := 0;
         tls.InsecureSkipVerify := skip;
         tls.ClientAuth := tls.RequireAnyClientCert;
         tls.Certificates :=
           [ {| tls.Certificate_chain := [ x509.Raw cert ];
                tls.PrivateKey := key |} ];
         tls.NextProtos := [ "pion-quic" ] |}.
Proof. reflexivity. Qed.

(** The builder returns exactly on the configurations that are not nil and
    carry a certificate; on the others it panics. *)
Lemma getTLSConfig_returns (config : option wrapper.Config) (t : tls.Config) :
  wrapper.getTLSConfig config = Returned t ->
  exists cert key skip,
    config = Some {| wrapper.Certificate := Some cert;
                     wrapper.PrivateKey := key;
                     wrapper.SkipVerify := skip |}.
Proof.
  destruct config as [[[cert |] key skip] |]; cbn; intros H; try discriminate.
  now exists cert, key, skip.
Qed.

Lemma getTLSConfig_panics (config : option wrapper.Config) :
  lacksCertificate config = true <->
  wrapper.getTLSConfig config = Panicked nilPointerDereference.
Proof.
  destruct config as [[[cert |] key skip] |]; cbn; split;
    intros H; try reflexivity; discriminate.
Qed.

(** C2.  For every certificate, key and skip-verification flag the builder
    returns a TLS parameter set whose minimum version is TLS 1.3, whose
    client-authentication policy makes a server demand a client
    certificate, and whose only certificate is the configured one with its
    key; the flag only sets InsecureSkipVerify. *)
Theorem C2_tls_requires_tls13_and_mutual_auth :
  forall (cert : x509.Certificate) (key : crypto.PrivateKey) (skip : bool),
  exists t : tls.Config,
    wrapper.getTLSConfig
      (Some {| wrapper.Certificate := Some cert;
               wrapper.PrivateKey := key;
               wrapper.SkipVerify := skip |}) = Returned t
    /\ tls.MinVersion t = tls.VersionTLS13
    /\ tls.VersionTLS13 <= tls.MinVersion t
    /\ tls.VersionTLS12 < tls.MinVersion t
    /\ tls.ClientAuth t = tls.RequireAnyClientCert
    /\ tls.requiresClientCert (tls.ClientAuth t) = true
    /\ tls.Certificates t
       = [ {| tls.Certificate_chain := [ x509.Raw cert ];
              tls.PrivateKey := key |} ]
    /\ tls.InsecureSkipVerify t = skip.
Proof.
  intros cert key skip. eexists. split; [ apply getTLSConfig_valid | ].
  cbn. unfold tls.VersionTLS13, tls.VersionTLS12.
  repeat split; try reflexivity; lia.
Qed.

(** C6.  The default engine parameters allow 1000 incoming bidirectional
    and 1000 incoming unidirectional streams, set the stream receive window
    to 3 MB and the connection receive window to 4.5 MB, which is strictly
    larger, and set the keep-alive period to 15 seconds, which is not
    zero. *)
Theorem C6_default_engine_parameters :
  quic.MaxIncomingStreams wrapper.getDefaultQuicConfig = 1000
  /\ quic.MaxIncomingUniStreams wrapper.getDefaultQuicConfig = 1000
  /\ quic.MaxStreamReceiveWindow wrapper.getDefaultQuicConfig = 3 * 2 ^ 20
  /\ 2 * quic.MaxConnectionReceiveWindow wrapper.getDefaultQuicConfig = 9 * 2 ^ 20
  /\ quic.MaxStreamReceiveWindow wrapper.getDefaultQuicConfig
     < quic.MaxConnectionReceiveWindow wrapper.getDefaultQuicConfig
  /\ quic.KeepAlivePeriod wrapper.getDefaultQuicConfig = 15 * time.Second
  /\ quic.KeepAlivePeriod wrapper.getDefaultQuicConfig = 15000000000
  /\ quic.KeepAlivePeriod wrapper.getDefaultQuicConfig <> 0.
Proof.
  vm_compute. repeat split; congruence.
Qed.

(** C7.  Whatever the configuration, a TLS parameter set that the builder
    returns lists the application protocol [pion-quic] and nothing else;
    and the builder returns one for every configuration that carries a
    certificate. *)
Theorem C7_tls_next_protos_fixed :
  (forall (config : option wrapper.Config) (t : tls.Config),
      wrapper.getTLSConfig config = Returned t ->
      tls.NextProtos t = [ "pion-quic" ])
  /\
  (forall (cert : x509.Certificate) (key : crypto.PrivateKey) (skip : bool),
      exists t : tls.Config,
        wrapper.getTLSConfig
          (Some {| wrapper.Certificate := Some cert;
                   wrapper.PrivateKey := key;
                   wrapper.SkipVerify := skip |}) = Returned t
        /\ tls.NextProtos t = [ "pion-quic" ]).
Proof.
  split.
  - intros config t H.
    destruct (getTLSConfig_returns config t H) as (cert & key & skip & ->).
    rewrite getTLSConfig_valid in H. injection H as <-. reflexivity.
  - intros cert key skip. eexists. split; [ apply getTLSConfig_valid | reflexivity ].
Qed.

Lemma C7_tls_next_protos_witness :
  wrapper.getTLSConfig (Some aConfig) = Returned aTLSConfig
  /\ tls.NextProtos aTLSConfig = [ "pion-quic" ].
Proof.
  split; [ reflexivity | ].
  exact (proj1 C7_tls_next_protos_fixed (Some aConfig) aTLSConfig eq_refl).
Defined.

(** ** The construction operations *)

Lemma exec_Dial (E : quic.Engine) (st : quic.State E) (addr : string)
      (config : option wrapper.Config) :
  exec E (wrapper.Dial addr config) st
  = match wrapper.getTLSConfig config with
    | Panicked p => (Panicked p, [], st)
    | Returned t =>
        let c := quic.DialAddr tenSeconds addr t wrapper.getDefaultQuicConfig in
        let (r, st') := quic.answer E c st in
        (Returned (sessionOf r), [c], st')
    end.
Proof.
  unfold wrapper.Dial, call.
  destruct (wrapper.getTLSConfig config) as [t | p]; cbn [eval exec bind];
    [ | reflexivity ].
  cbv zeta. fold tenSeconds.
  destruct (quic.answer E _ st) as [[s | e] st']; reflexivity.
Qed.

Lemma exec_Client (E : quic.Engine) (st : quic.State E) (conn : net.Conn)
      (config : option wrapper.Config) :
  exec E (wrapper.Client conn config) st
  = match net.RemoteAddr conn with
    | None =>
        (Returned (None, Some wrapper.errClientWithoutRemoteAddress), [], st)
    | Some rAddr =>
        match wrapper.getTLSConfig config with
        | Panicked p => (Panicked p, [], st)
        | Returned t =>
            let c := quic.Dial tenSeconds (wrapper.newFakePacketConn conn) rAddr
                               t wrapper.getDefaultQuicConfig in
            let (r, st') := quic.answer E c st in
            (Returned (sessionOf r), [c], st')
        end
    end.
Proof.
  unfold wrapper.Client, call.
  destruct (net.RemoteAddr conn) as [rAddr |]; [ | reflexivity ].
  destruct (wrapper.getTLSConfig config) as [t | p]; cbn [eval exec bind];
    [ | reflexivity ].
  cbv zeta. fold tenSeconds.
  destruct (quic.answer E _ st) as [[s | e] st']; reflexivity.
Qed.

Lemma exec_Server (E : quic.Engine) (st : quic.State E) (conn : net.Conn)
      (config : option wrapper.Config) :
  exec E (wrapper.Server conn config) st
  = match wrapper.getTLSConfig config with
    | Panicked p => (Panicked p, [], st)
    | Returned t =>
        let c := quic.Listen (wrapper.newFakePacketConn conn) t
                             wrapper.getDefaultQuicConfig in
        let (r, st') := quic.answer E c st in
        (Returned (listenerOf r), [c], st')
    end.
Proof.
  unfold wrapper.Server, call.
  destruct (wrapper.getTLSConfig config) as [t | p]; cbn [eval exec bind];
    [ | reflexivity ].
  cbv zeta.
  destruct (quic.answer E _ st) as [[s | e] st']; reflexivity.
Qed.

Lemma exec_Listen (E : quic.Engine) (st : quic.State E) (addr : string)
      (config : option wrapper.Config) :
  exec E (wrapper.Listen addr config) st
  = match wrapper.getTLSConfig config with
    | Panicked p => (Panicked p, [], st)
    | Returned t =>
        let c := quic.ListenAddr addr t wrapper.getDefaultQuicConfig in
        let (r, st') := quic.answer E c st in
        (Returned (listenerOf r), [c], st')
    end.
Proof.
  unfold wrapper.Listen, call.
  destruct (wrapper.getTLSConfig config) as [t | p]; cbn [eval exec bind];
    [ | reflexivity ].
  destruct (quic.answer E _ st) as [[s | e] st']; reflexivity.
Qed.

(** An answer of the engine never becomes the package's own sentinel. *)
Lemma sessionOf_not_sentinel (r : quic.Conn + quic.Error) :
  snd (sessionOf r) <> Some wrapper.errClientWithoutRemoteAddress.
Proof. destruct r; cbn; discriminate. Qed.

(** C3.  On a connection whose RemoteAddr is nil, Client returns
    (nil, errClientWithoutRemoteAddress), whose text is
    [quic: creating client without remote address], without any call to the
    engine and whatever the configuration.  On a connection with
    a remote address, Client never returns that error. *)
Theorem C3_client_without_remote_address :
  forall (E : quic.Engine) (st : quic.State E) (conn : net.Conn)
         (config : option wrapper.Config),
    (net.RemoteAddr conn = None ->
       exec E (wrapper.Client conn config) st
         = (Returned (None, Some wrapper.errClientWithoutRemoteAddress), [], st)
       /\ wrapper.Error wrapper.errClientWithoutRemoteAddress
          = "quic: creating client without remote address")
    /\
    (net.RemoteAddr conn <> None ->
       forall r : option wrapper.Session * option wrapper.error,
         outcomeOf (exec E (wrapper.Client conn config) st) = Returned r ->
         snd r <> Some wrapper.errClientWithoutRemoteAddress).
Proof.
  intros E st conn config. rewrite exec_Client. split.
  - intros ->. split; reflexivity.
  - intros Haddr r.
    destruct (net.RemoteAddr conn) as [rAddr |]; [ | congruence ].
    destruct (wrapper.getTLSConfig config) as [t | p]; cbv zeta.
    + destruct (quic.answer E _ st) as [a st']. unfold outcomeOf; cbn [fst].
      intros [= <-]. apply sessionOf_not_sentinel.
    + unfold outcomeOf; cbn [fst]. discriminate.
Qed.

Lemma C3_client_without_remote_address_witness :
  exec (scripted (succeeding 7)) (wrapper.Client connWithoutAddr None) tt
    = (Returned (None, Some wrapper.errClientWithoutRemoteAddress), [], tt)
  /\
  snd (None (A := wrapper.Session),
       Some (wrapper.engineError
               (quic.OtherError "quic: creating client without remote address")))
    <> Some wrapper.errClientWithoutRemoteAddress.
Proof.
  split.
  - exact (proj1 (proj1 (C3_client_without_remote_address
                           (scripted (succeeding 7)) tt connWithoutAddr None)
                        eq_refl)).
  - apply (proj2 (C3_client_without_remote_address
                    (scripted (failing (quic.OtherError
                       "quic: creating client without remote address")))
                    tt connWithAddr (Some aConfig))).
    + discriminate.
    + reflexivity.
Defined.

(** ** Closing a session *)

(** A [uint16] converts to the engine's code type unchanged. *)
Lemma ApplicationErrorCode_uint16 (code : N) :
  (code < 2 ^ 16)%N -> quic.ApplicationErrorCode code = code.
Proof.
  intros H. unfold quic.ApplicationErrorCode. apply N.mod_small.
  eapply N.lt_trans; [ exact H | ]. reflexivity.
Qed.

Lemma exec_CloseWithError (E : quic.Engine) (st : quic.State E)
      (s : wrapper.Session) (code : N) (err : option wrapper.error) :
  exec E (wrapper.CloseWithError s code err) st
  = let c := quic.Conn_CloseWithError (wrapper.Session_s s)
               (quic.ApplicationErrorCode code) (reasonOf err) in
    let (r, st') := quic.answer E c st in
    (Returned (option_map wrapper.engineError r), [c], st').
Proof.
  unfold wrapper.CloseWithError, call. cbn [exec bind]. cbv zeta.
  replace (match err with Some err' => wrapper.Error err' | None => "nil" end)
    with (reasonOf err) by (destruct err; reflexivity).
  destruct (quic.answer E _ st) as [r st']; reflexivity.
Qed.

(** C4.  For every close code of 16 bits and every error value, nil or
    not, CloseWithError does not panic: it calls the engine's
    CloseWithError once, with the same code and with the reason ["nil"]
    when the error is nil and the error's text otherwise, and returns what
    the engine returns. *)
Theorem C4_close_with_error_accepts_nil :
  forall (E : quic.Engine) (st : quic.State E) (s : wrapper.Session)
         (code : N) (err : option wrapper.error),
    (code < 2 ^ 16)%N ->
    exists reason : string,
      exec E (wrapper.CloseWithError s code err) st
        = (Returned
             (option_map wrapper.engineError
                (fst (quic.answer E
                        (quic.Conn_CloseWithError (wrapper.Session_s s) code reason)
                        st))),
           [quic.Conn_CloseWithError (wrapper.Session_s s) code reason],
           snd (quic.answer E
                  (quic.Conn_CloseWithError (wrapper.Session_s s) code reason)
                  st))
      /\ (err = None -> reason = "nil")
      /\ (forall e, err = Some e -> reason = wrapper.Error e).
Proof.
  intros E st s code err Hcode.
  exists (reasonOf err).
  rewrite exec_CloseWithError, (ApplicationErrorCode_uint16 code Hcode). cbv zeta.
  split; [ | split ].
  - destruct (quic.answer E _ st) as [r st']; reflexivity.
  - intros ->; reflexivity.
  - intros e ->; reflexivity.
Qed.

Lemma C4_close_with_error_witness :
  (7 < 2 ^ 16)%N
  /\ exec (scripted (succeeding 0)) (wrapper.CloseWithError aSession 7 None) tt
     = (Returned None, [quic.Conn_CloseWithError 1%nat 7 "nil"], tt).
Proof.
  split; [ reflexivity | ].
  destruct (C4_close_with_error_accepts_nil
              (scripted (succeeding 0)) tt aSession 7 None eq_refl)
    as (reason & Hexec & Hnil & _).
  rewrite Hexec, (Hnil eq_refl). reflexivity.
Defined.

(** C5.  Close is CloseWithError with code 0 and io.EOF: as programs they
    are equal, and on every engine Close makes the one call
    CloseWithError(0, "EOF") and returns the engine's answer. *)
Theorem C5_close_is_close_with_eof :
  forall (E : quic.Engine) (st : quic.State E) (s : wrapper.Session),
    wrapper.Close s = wrapper.CloseWithError s 0 (Some wrapper.io_EOF)
    /\ exec E (wrapper.Close s) st
       = exec E (wrapper.CloseWithError s 0 (Some wrapper.io_EOF)) st
    /\ exec E (wrapper.Close s) st
       = (Returned
            (option_map wrapper.engineError
               (fst (quic.answer E
                       (quic.Conn_CloseWithError (wrapper.Session_s s) 0 "EOF") st))),
          [quic.Conn_CloseWithError (wrapper.Session_s s) 0 "EOF"],
          snd (quic.answer E
                 (quic.Conn_CloseWithError (wrapper.Session_s s) 0 "EOF") st)).
Proof.
  intros E st s. split; [ reflexivity | split; [ reflexivity | ] ].
  unfold wrapper.Close. rewrite exec_CloseWithError. cbv zeta.
  change (quic.ApplicationErrorCode 0) with 0%N.
  change (reasonOf (Some wrapper.io_EOF)) with "EOF".
  destruct (quic.answer E _ st) as [r st']; reflexivity.
Qed.

(** ** Determinism of the builders *)

Lemma getTLSConfig_reads_builderInput (c1 c2 : option wrapper.Config) :
  builderInput c1 = builderInput c2 ->
  wrapper.getTLSConfig c1 = wrapper.getTLSConfig c2.
Proof.
  destruct c1 as [[cert1 key1 skip1] |], c2 as [[cert2 key2 skip2] |];
    cbn [builderInput wrapper.Certificate wrapper.PrivateKey wrapper.SkipVerify];
    intros H; try discriminate; [ | reflexivity ].
  injection H as Hraw -> ->.
  destruct cert1 as [cert1 |], cert2 as [cert2 |]; cbn in Hraw; try discriminate;
    [ | reflexivity ].
  injection Hraw as Hraw. cbn. now rewrite Hraw.
Qed.

(** Every call of a construction operation carries the TLS parameter set
    the builder derives from the configuration and the default engine
    parameter set. *)
Lemma constructionCalls_params (E : quic.Engine) (st : quic.State E)
      (conn : net.Conn) (addr : string) (config : option wrapper.Config)
      (c : quic.Call) :
  In c (constructionCalls E st conn addr config) ->
  exists t : tls.Config,
    wrapper.getTLSConfig config = Returned t
    /\ paramsOf c = Some (t, wrapper.getDefaultQuicConfig).
Proof.
  unfold constructionCalls.
  rewrite exec_Client, exec_Dial, exec_Server, exec_Listen.
  destruct (wrapper.getTLSConfig config) as [t | p].
  - cbv zeta. unfold callsOf.
    destruct (net.RemoteAddr conn) as [rAddr |];
      repeat match goal with
             | |- context [quic.answer E ?call st] =>
                 destruct (quic.answer E call st)
             end;
      cbn [fst snd app In];
      intros H; exists t; (split; [ reflexivity | ]);
      repeat (destruct H as [<- | H]; [ reflexivity | ]); contradiction.
  - destruct (net.RemoteAddr conn); cbn; intros [].
Qed.

(** With a certificate in the configuration and, for Client, a remote
    address on the connection, each of the four construction operations
    makes its engine call, and every call carries the TLS parameter set of
    the configuration and the default engine parameter set. *)
Lemma constructionCalls_all_params (E : quic.Engine) (st : quic.State E)
      (conn : net.Conn) (addr : string) (config : option wrapper.Config)
      (t : tls.Config) :
  wrapper.getTLSConfig config = Returned t ->
  net.RemoteAddr conn <> None ->
  map paramsOf (constructionCalls E st conn addr config)
  = [ Some (t, wrapper.getDefaultQuicConfig);
      Some (t, wrapper.getDefaultQuicConfig);
      Some (t, wrapper.getDefaultQuicConfig);
      Some (t, wrapper.getDefaultQuicConfig) ].
Proof.
  intros Ht Haddr. unfold constructionCalls.
  rewrite exec_Client, exec_Dial, exec_Server, exec_Listen, Ht.
  destruct (net.RemoteAddr conn) as [rAddr |]; [ | congruence ].
  cbv zeta. unfold callsOf.
  repeat match goal with
         | |- context [quic.answer E ?call st] =>
             destruct (quic.answer E call st)
         end.
  reflexivity.
Qed.

(** C8.  The parameter sets derived from a configuration depend on the
    configuration alone, and of it only on the encoded certificate, the
    key and the flag.  The construction operations are programs that talk
    to the engine and read the connection; take two runs of them that
    differ in everything but that input: other engines, other engine
    states, other connections and addresses, other fields of the
    certificate.  With a certificate in the configuration the builder
    returns in both runs, every operation makes its engine call, and all
    calls of both runs carry one and the same TLS parameter set and one and
    the same engine parameter set.  On configurations that agree on that
    input the TLS builder gives equal results also when it panics, and the
    engine parameter set is the same one whatever the configurations. *)
Theorem C8_derived_parameters_depend_on_input_only :
  forall (E1 E2 : quic.Engine) (st1 : quic.State E1) (st2 : quic.State E2)
         (conn1 conn2 : net.Conn) (addr1 addr2 : string)
         (config1 config2 : option wrapper.Config),
    (builderInput config1 = builderInput config2 ->
     wrapper.getTLSConfig config1 = wrapper.getTLSConfig config2)
    /\
    (builderInput config1 = builderInput config2 ->
     lacksCertificate config1 = false ->
     net.RemoteAddr conn1 <> None ->
     net.RemoteAddr conn2 <> None ->
     exists t : tls.Config,
       wrapper.getTLSConfig config1 = Returned t
       /\ wrapper.getTLSConfig config2 = Returned t
       /\ map paramsOf (constructionCalls E1 st1 conn1 addr1 config1)
          = [ Some (t, wrapper.getDefaultQuicConfig);
              Some (t, wrapper.getDefaultQuicConfig);
              Some (t, wrapper.getDefaultQuicConfig);
              Some (t, wrapper.getDefaultQuicConfig) ]
       /\ map paramsOf (constructionCalls E2 st2 conn2 addr2 config2)
          = map paramsOf (constructionCalls E1 st1 conn1 addr1 config1))
    /\
    (forall c1 c2 : quic.Call,
        In c1 (constructionCalls E1 st1 conn1 addr1 config1) ->
        In c2 (constructionCalls E2 st2 conn2 addr2 config2) ->
        option_map snd (paramsOf c1) = option_map snd (paramsOf c2)
        /\ option_map snd (paramsOf c1) = Some wrapper.getDefaultQuicConfig).
Proof.
  intros E1 E2 st1 st2 conn1 conn2 addr1 addr2 config1 config2.
  split; [ apply getTLSConfig_reads_builderInput | split ].
  - intros Hin Hcert Ha1 Ha2.
    pose proof (getTLSConfig_reads_builderInput _ _ Hin) as Heq.
    destruct (wrapper.getTLSConfig config1) as [t | p] eqn:Ht.
    + exists t. split; [ reflexivity | split; [ now symmetry | ] ].
      rewrite (constructionCalls_all_params E1 st1 conn1 addr1 config1 t Ht Ha1).
      split; [ reflexivity | ].
      apply constructionCalls_all_params; [ now symmetry | exact Ha2 ].
    + destruct p. apply getTLSConfig_panics in Ht. congruence.
  - intros c1 c2 H1 H2.
    apply constructionCalls_params in H1 as (t1 & _ & ->).
    apply constructionCalls_params in H2 as (t2 & _ & ->).
    split; reflexivity.
Qed.

Lemma C8_derived_parameters_witness :
  builderInput (Some aConfig) = builderInput (Some sameConfig)
  /\ aConfig <> sameConfig
  /\ wrapper.getTLSConfig (Some aConfig) = Returned aTLSConfig
  /\ wrapper.getTLSConfig (Some sameConfig) = Returned aTLSConfig
  /\ map paramsOf (constructionCalls (scripted (failing quic.DeadlineExceeded)) tt
                     connWithAddr ":4433" (Some sameConfig))
     = map paramsOf (constructionCalls (scripted (succeeding 7)) tt
                       connWithAddr "192.0.2.1:4433" (Some aConfig)).
Proof.
  split; [ reflexivity | split; [ discriminate | ] ].
  destruct (proj1 (proj2 (C8_derived_parameters_depend_on_input_only
                            (scripted (succeeding 7))
                            (scripted (failing quic.DeadlineExceeded))
                            tt tt connWithAddr connWithAddr "192.0.2.1:4433" ":4433"
                            (Some aConfig) (Some sameConfig)))
                  eq_refl eq_refl)
    as (t & Ht1 & Ht2 & _ & Hsame).
  - discriminate.
  - discriminate.
  - injection Ht1 as <-.
    split; [ reflexivity | split; [ exact Ht2 | exact Hsame ] ].
Defined.

(** ** Configurations without a certificate *)

(** C10 (amended).  When the configuration is nil or its certificate is
    nil, the TLS builder panics on the nil pointer, and with it Dial,
    Server and Listen, and Client on a connection that reports a remote
    address; none of them reaches the engine.  Client on a connection
    without remote address returns errClientWithoutRemoteAddress before
    the builder runs. *)
Theorem C10_missing_certificate_panics :
  forall (E : quic.Engine) (st : quic.State E) (conn : net.Conn)
         (addr : string) (config : option wrapper.Config),
    lacksCertificate config = true ->
    wrapper.getTLSConfig config = Panicked nilPointerDereference
    /\ exec E (wrapper.Dial addr config) st
       = (Panicked nilPointerDereference, [], st)
    /\ exec E (wrapper.Server conn config) st
       = (Panicked nilPointerDereference, [], st)
    /\ exec E (wrapper.Listen addr config) st
       = (Panicked nilPointerDereference, [], st)
    /\ (net.RemoteAddr conn <> None ->
        exec E (wrapper.Client conn config) st
        = (Panicked nilPointerDereference, [], st))
    /\ (net.RemoteAddr conn = None ->
        exec E (wrapper.Client conn config) st
        = (Returned (None, Some wrapper.errClientWithoutRemoteAddress), [], st)).
Proof.
  intros E st conn addr config Hlacks.
  apply getTLSConfig_panics in Hlacks.
  rewrite exec_Dial, exec_Server, exec_Listen, exec_Client, Hlacks.
  repeat split.
  - destruct (net.RemoteAddr conn); [ reflexivity | congruence ].
  - intros ->; reflexivity.
Qed.

Lemma C10_missing_certificate_witness :
  lacksCertificate (Some noCertificate) = true
  /\ exec (scripted (succeeding 7)) (wrapper.Dial "192.0.2.1:4433" (Some noCertificate)) tt
     = (Panicked nilPointerDereference, [], tt)
  /\ exec (scripted (succeeding 7)) (wrapper.Client connWithAddr None) tt
     = (Panicked nilPointerDereference, [], tt).
Proof.
  split; [ reflexivity | split ].
  - exact (proj1 (proj2 (C10_missing_certificate_panics
                           (scripted (succeeding 7)) tt connWithAddr
                           "192.0.2.1:4433" (Some noCertificate) eq_refl))).
  - refine (proj1 (proj2 (proj2 (proj2 (proj2
              (C10_missing_certificate_panics
                 (scripted (succeeding 7)) tt connWithAddr
                 "192.0.2.1:4433" None eq_refl))))) _).
    discriminate.
Defined.

(** Against C10 as worded: Client with a nil configuration, on a connection
    without remote address, does not panic; it returns the error. *)
Lemma C10_counterexample_client_without_address :
  lacksCertificate None = true
  /\ net.RemoteAddr connWithoutAddr = None
  /\ outcomeOf (exec (scripted (succeeding 7))
                     (wrapper.Client connWithoutAddr None) tt)
     = Returned (None, Some wrapper.errClientWithoutRemoteAddress)
  /\ outcomeOf (exec (scripted (succeeding 7))
                     (wrapper.Client connWithoutAddr None) tt)
     <> Panicked nilPointerDereference.
Proof.
  repeat split; try reflexivity.
  vm_compute. discriminate.
Qed.

(** ** Bounded waits *)

Lemma tenSeconds_deadline :
  context.Deadline tenSeconds = Some (10 * time.Second)
  /\ 10 * time.Second = 10000000000.
Proof. split; reflexivity. Qed.

(** A call under the ten-second context returns within ten seconds: with
    the engine's answer if it comes in time, with the context's error
    otherwise. *)
Lemma await_tenSeconds (sch : quic.Schedule) (c : quic.Call) (late : quic.Resp c) :
  quic.contextOf c = Some tenSeconds ->
  quic.expired c = Some late ->
  exists (t : time.Duration) (r : quic.Resp c),
    quic.await sch c = quic.Done t r
    /\ t <= 10 * time.Second
    /\ (sch c = None -> t = 10 * time.Second /\ r = late)
    /\ (forall t' r', sch c = Some (t', r') -> 10 * time.Second < t' ->
        t = 10 * time.Second /\ r = late).
Proof.
  intros Hctx Hlate. unfold quic.await. rewrite Hctx, Hlate.
  cbn [tenSeconds context.WithTimeout context.Background context.Deadline].
  destruct (sch c) as [[t r] |].
  - destruct (Z.leb_spec t (10 * time.Second)) as [Hle | Hgt].
    + exists t, r.
      split; [ reflexivity | split; [ exact Hle | split; [ discriminate | ] ] ].
      intros t' r' [= <- _] Hlt. lia.
    + exists (10 * time.Second), late.
      split; [ reflexivity | split; [ lia | split; [ discriminate | ] ] ].
      intros; split; reflexivity.
  - exists (10 * time.Second), late.
    split; [ reflexivity | split; [ lia | split; intros; split; reflexivity ] ].
Qed.

Lemma timed_AcceptStream (sch : quic.Schedule) (s : wrapper.Session) :
  timed sch (wrapper.AcceptStream s)
  = match quic.await sch (quic.Conn_AcceptStream (wrapper.Session_s s) tenSeconds) with
    | quic.Blocked => quic.Blocked
    | quic.Done t r =>
        quic.Done (t + 0)
          (Returned
             match r with
             | inl str => (Some {| wrapper.Stream_s := str |}, None)
             | inr e => if closedWithoutError e then (None, None)
                        else (None, Some (wrapper.engineError e))
             end)
    end.
Proof.
  unfold wrapper.AcceptStream, call. cbn [timed bind]. cbv zeta. fold tenSeconds.
  destruct (quic.await sch _) as [t [str | e] |]; try reflexivity.
  rewrite closedWithoutError_prefix.
  destruct (closedWithoutError e); reflexivity.
Qed.

Lemma timed_AcceptUniStream (sch : quic.Schedule) (s : wrapper.Session) :
  timed sch (wrapper.AcceptUniStream s)
  = match quic.await sch (quic.Conn_AcceptUniStream (wrapper.Session_s s) tenSeconds) with
    | quic.Blocked => quic.Blocked
    | quic.Done t r =>
        quic.Done (t + 0)
          (Returned
             match r with
             | inl str => (Some {| wrapper.ReadableStream_s := str |}, None)
             | inr e => if closedWithoutError e then (None, None)
                        else (None, Some (wrapper.engineError e))
             end)
    end.
Proof.
  unfold wrapper.AcceptUniStream, call. cbn [timed bind]. cbv zeta. fold tenSeconds.
  destruct (quic.await sch _) as [t [str | e] |]; try reflexivity.
  rewrite closedWithoutError_prefix.
  destruct (closedWithoutError e); reflexivity.
Qed.

Lemma timed_Dial (sch : quic.Schedule) (addr : string)
      (config : option wrapper.Config) :
  timed sch (wrapper.Dial addr config)
  = match wrapper.getTLSConfig config with
    | Panicked p => quic.Done 0 (Panicked p)
    | Returned t =>
        match quic.await sch (quic.DialAddr tenSeconds addr t
                                wrapper.getDefaultQuicConfig) with
        | quic.Blocked => quic.Blocked
        | quic.Done d r => quic.Done (d + 0) (Returned (sessionOf r))
        end
    end.
Proof.
  unfold wrapper.Dial, call.
  destruct (wrapper.getTLSConfig config) as [t | p]; cbn [eval timed bind];
    [ | reflexivity ].
  cbv zeta. fold tenSeconds.
  destruct (quic.await sch _) as [d [s | e] |]; reflexivity.
Qed.

Lemma timed_Client (sch : quic.Schedule) (conn : net.Conn)
      (config : option wrapper.Config) :
  timed sch (wrapper.Client conn config)
  = match net.RemoteAddr conn with
    | None =>
        quic.Done 0 (Returned (None, Some wrapper.errClientWithoutRemoteAddress))
    | Some rAddr =>
        match wrapper.getTLSConfig config with
        | Panicked p => quic.Done 0 (Panicked p)
        | Returned t =>
            match quic.await sch
                    (quic.Dial tenSeconds (wrapper.newFakePacketConn conn) rAddr
                               t wrapper.getDefaultQuicConfig) with
            | quic.Blocked => quic.Blocked
            | quic.Done d r => quic.Done (d + 0) (Returned (sessionOf r))
            end
        end
    end.
Proof.
  unfold wrapper.Client, call.
  destruct (net.RemoteAddr conn) as [rAddr |]; [ | reflexivity ].
  destruct (wrapper.getTLSConfig config) as [t | p]; cbn [eval timed bind];
    [ | reflexivity ].
  cbv zeta. fold tenSeconds.
  destruct (quic.await sch _) as [d [s | e] |]; reflexivity.
Qed.

Ltac bounded_wait sch c :=
  let t := fresh "t" in
  let r := fresh "r" in
  let Haw := fresh "Haw" in
  let Hle := fresh "Hle" in
  let Hnone := fresh "Hnone" in
  destruct (await_tenSeconds sch c (inr quic.DeadlineExceeded) eq_refl eq_refl)
    as (t & r & Haw & Hle & Hnone & _);
  rewrite Haw; cbn [within];
  split; [ lia | ];
  let H := fresh "H" in
  intros H; destruct (Hnone H) as [-> ->]; reflexivity.

(** Every engine call of Client, Dial, AcceptStream and AcceptUniStream is
    made under the ten-second context. *)
Lemma boundedWaitCalls_context (E : quic.Engine) (st : quic.State E)
      (s : wrapper.Session) (conn : net.Conn) (addr : string)
      (config : option wrapper.Config) (c : quic.Call) :
  In c (boundedWaitCalls E st s conn addr config) ->
  quic.contextOf c = Some tenSeconds.
Proof.
  unfold boundedWaitCalls.
  rewrite exec_Client, exec_Dial, exec_AcceptStream, exec_AcceptUniStream.
  cbv zeta. unfold callsOf.
  destruct (wrapper.getTLSConfig config) as [t | p];
    destruct (net.RemoteAddr conn) as [rAddr |];
    repeat match goal with
           | |- context [quic.answer E ?call st] =>
               destruct (quic.answer E call st)
           end;
    cbn [fst snd app In];
    intros H;
    repeat (destruct H as [<- | H]; [ reflexivity | ]); contradiction.
Qed.

(** C9.  Client, Dial, AcceptStream and AcceptUniStream make their engine
    call under a context whose deadline is ten seconds.  Against an engine
    that honours the context ([quic.await]) each of them returns within ten
    seconds whatever the engine has to answer, and when the engine has no
    answer each returns, at ten seconds, the context's deadline error,
    which the accept operations do not take for a clean end. *)
Theorem C9_waits_bounded_by_ten_seconds :
  forall (sch : quic.Schedule) (s : wrapper.Session) (conn : net.Conn)
         (rAddr : net.Addr) (addr : string) (config : option wrapper.Config)
         (t : tls.Config),
    context.Deadline tenSeconds = Some (10 * time.Second)
    /\ 10 * time.Second = 10000000000
    /\ closedWithoutError quic.DeadlineExceeded = false
    /\ (forall (E : quic.Engine) (st : quic.State E) (c : quic.Call),
          In c (boundedWaitCalls E st s conn addr config) ->
          quic.contextOf c = Some tenSeconds)
    /\ (within (10 * time.Second) (timed sch (wrapper.AcceptStream s))
        /\ (sch (quic.Conn_AcceptStream (wrapper.Session_s s) tenSeconds) = None ->
            timed sch (wrapper.AcceptStream s)
            = quic.Done (10 * time.Second) timedOut))
    /\ (within (10 * time.Second) (timed sch (wrapper.AcceptUniStream s))
        /\ (sch (quic.Conn_AcceptUniStream (wrapper.Session_s s) tenSeconds) = None ->
            timed sch (wrapper.AcceptUniStream s)
            = quic.Done (10 * time.Second) timedOut))
    /\ (within (10 * time.Second) (timed sch (wrapper.Dial addr config))
        /\ (wrapper.getTLSConfig config = Returned t ->
            sch (quic.DialAddr tenSeconds addr t wrapper.getDefaultQuicConfig) = None ->
            timed sch (wrapper.Dial addr config)
            = quic.Done (10 * time.Second) timedOut))
    /\ (within (10 * time.Second) (timed sch (wrapper.Client conn config))
        /\ (net.RemoteAddr conn = Some rAddr ->
            wrapper.getTLSConfig config = Returned t ->
            sch (quic.Dial tenSeconds (wrapper.newFakePacketConn conn) rAddr t
                           wrapper.getDefaultQuicConfig) = None ->
            timed sch (wrapper.Client conn config)
            = quic.Done (10 * time.Second) timedOut)).
Proof.
  intros sch s conn rAddr addr config t.
  split; [ reflexivity | split; [ reflexivity | split; [ reflexivity | ] ] ].
  split; [ intros E st c; apply boundedWaitCalls_context | ].
  rewrite timed_AcceptStream, timed_AcceptUniStream, timed_Dial, timed_Client.
  split; [ | split; [ | split ] ].
  - bounded_wait sch (quic.Conn_AcceptStream (wrapper.Session_s s) tenSeconds).
  - bounded_wait sch (quic.Conn_AcceptUniStream (wrapper.Session_s s) tenSeconds).
  - destruct (wrapper.getTLSConfig config) as [t' | p].
    + destruct (await_tenSeconds sch
                  (quic.DialAddr tenSeconds addr t' wrapper.getDefaultQuicConfig)
                  (inr quic.DeadlineExceeded) eq_refl eq_refl)
        as (d & r & Haw & Hle & Hnone & _).
      rewrite Haw; cbn [within]. split; [ lia | ].
      intros [= <-] H. destruct (Hnone H) as [-> ->]. reflexivity.
    + cbn [within]. split; [ unfold time.Second, time.Millisecond,
                             time.Microsecond, time.Nanosecond; lia | discriminate ].
  - destruct (net.RemoteAddr conn) as [a |].
    + destruct (wrapper.getTLSConfig config) as [t' | p].
      * destruct (await_tenSeconds sch
                    (quic.Dial tenSeconds (wrapper.newFakePacketConn conn) a t'
                               wrapper.getDefaultQuicConfig)
                    (inr quic.DeadlineExceeded) eq_refl eq_refl)
          as (d & r & Haw & Hle & Hnone & _).
        rewrite Haw; cbn [within]. split; [ lia | ].
        intros [= <-] [= <-] H. destruct (Hnone H) as [-> ->]. reflexivity.
      * cbn [within]. split; [ unfold time.Second, time.Millisecond,
                               time.Microsecond, time.Nanosecond; lia | discriminate ].
    + cbn [within]. split; [ unfold time.Second, time.Millisecond,
                             time.Microsecond, time.Nanosecond; lia | discriminate ].
Qed.

Lemma C9_waits_bounded_witness :
  timed silent (wrapper.AcceptStream aSession)
    = quic.Done 10000000000 timedOut
  /\ timed silent (wrapper.AcceptUniStream aSession)
    = quic.Done 10000000000 timedOut
  /\ timed silent (wrapper.Dial "192.0.2.1:4433" (Some aConfig))
    = quic.Done 10000000000 timedOut
  /\ timed silent (wrapper.Client connWithAddr (Some aConfig))
    = quic.Done 10000000000 timedOut.
Proof.
  destruct (C9_waits_bounded_by_ten_seconds
              silent aSession connWithAddr anAddr "192.0.2.1:4433"
              (Some aConfig) aTLSConfig)
    as (_ & _ & _ & _ & [_ Hacc] & [_ Huni] & [_ Hdial] & [_ Hclient]).
  split; [ exact (Hacc eq_refl) | ].
  split; [ exact (Huni eq_refl) | ].
  split; [ exact (Hdial eq_refl eq_refl) | ].
  exact (Hclient eq_refl eq_refl eq_refl).
Defined.

(** An answer that comes in time is returned when it comes; one that comes
    late is not waited for. *)
Example accept_in_time :
  timed (answering (3 * time.Second) (succeeding 5)) (wrapper.AcceptStream aSession)
  = quic.Done 3000000000 (Returned (Some {| wrapper.Stream_s := 5%nat |}, None)).
Proof. reflexivity. Qed.

Example accept_too_late :
  timed (answering (11 * time.Second) (succeeding 5)) (wrapper.AcceptStream aSession)
  = quic.Done 10000000000 timedOut.
Proof. reflexivity. Qed.

(** Server and Listen take no context: they wait as long as the engine
    does. *)
Example listen_not_bounded :
  timed silent (wrapper.Listen ":4433" (Some aConfig)) = quic.Blocked.
Proof. reflexivity. Qed.

(** A closure by the peer with a code other than 0 is an error for the
    accepting side. *)
Example accept_after_peer_error :
  exec (scripted (failing (quic.ApplicationError true 258 "bye")))
       (wrapper.AcceptStream aSession) tt
  = (Returned (None, Some (wrapper.engineError (quic.ApplicationError true 258 "bye"))),
     [quic.Conn_AcceptStream 1%nat tenSeconds], tt)
  /\ wrapper.Error (wrapper.engineError (quic.ApplicationError true 258 "bye"))
     = "Application error 0x102 (remote): bye".
Proof. split; reflexivity. Qed.

(** ** Further properties of the package *)

Lemma sessionOf_exactlyOne (r : quic.Conn + quic.Error) :
  exactlyOne (sessionOf r) = true.
Proof. destruct r; reflexivity. Qed.

Lemma listenerOf_exactlyOne (r : quic.Listener + quic.Error) :
  exactlyOne (listenerOf r) = true.
Proof. destruct r; reflexivity. Qed.

Ltac returned_pair H :=
  unfold outcomeOf in H; cbn [fst] in H;
  first [ discriminate H | injection H as <- ].

(** X1.  Whenever Client, Dial, Server or Listen returns, on any engine,
    exactly one half of the pair is nil: a session or listener without
    error, or an error without session or listener. *)
Theorem X1_construction_result_or_error :
  forall (E : quic.Engine) (st : quic.State E) (conn : net.Conn) (addr : string)
         (config : option wrapper.Config),
    (forall r, outcomeOf (exec E (wrapper.Client conn config) st) = Returned r ->
               exactlyOne r = true)
    /\ (forall r, outcomeOf (exec E (wrapper.Dial addr config) st) = Returned r ->
                  exactlyOne r = true)
    /\ (forall r, outcomeOf (exec E (wrapper.Server conn config) st) = Returned r ->
                  exactlyOne r = true)
    /\ (forall r, outcomeOf (exec E (wrapper.Listen addr config) st) = Returned r ->
                  exactlyOne r = true).
Proof.
  intros E st conn addr config.
  rewrite exec_Client, exec_Dial, exec_Server, exec_Listen. cbv zeta.
  destruct (wrapper.getTLSConfig config) as [t | p];
    destruct (net.RemoteAddr conn) as [rAddr |];
    repeat match goal with
           | |- context [quic.answer E ?call st] =>
               destruct (quic.answer E call st)
           end;
    repeat split; intros res H; returned_pair H;
    first [ apply sessionOf_exactlyOne | apply listenerOf_exactlyOne | reflexivity ].
Qed.

Lemma X1_construction_result_or_error_witness :
  exactlyOne (A := wrapper.Session)
             (None, Some (wrapper.engineError quic.DeadlineExceeded)) = true
  /\ exactlyOne (Some {| wrapper.Listener_l := 7%nat |}, None) = true.
Proof.
  split.
  - exact (proj1 (proj2 (X1_construction_result_or_error
                           (scripted (failing quic.DeadlineExceeded)) tt
                           connWithAddr "192.0.2.1:4433" (Some aConfig)))
                 _ eq_refl).
  - exact (proj2 (proj2 (proj2 (X1_construction_result_or_error
                                  (scripted (succeeding 7)) tt
                                  connWithAddr ":4433" (Some aConfig))))
                 _ eq_refl).
Defined.

Lemma closedWithoutError_text (e : quic.Error) :
  strings.HasPrefix (quic.Error_text e) "Application error 0x0"
  = closedWithoutError e.
Proof. exact (closedWithoutError_prefix e). Qed.

(** X2.  AcceptStream and AcceptUniStream never panic and never return a
    stream together with an error.  They return a stream exactly when the
    engine's accept call succeeds, and (nil, nil) exactly when it fails
    with an error whose text begins with [Application error 0x0]: a nil
    error does not promise a stream. *)
Theorem X2_accept_result_shape :
  forall (E : quic.Engine) (st : quic.State E) (s : wrapper.Session),
    (exists r,
        outcomeOf (exec E (wrapper.AcceptStream s) st) = Returned r
        /\ (fst r <> None -> snd r = None)
        /\ (fst r <> None <->
            exists str,
              fst (quic.answer E (quic.Conn_AcceptStream (wrapper.Session_s s)
                                    tenSeconds) st) = inl str
              /\ fst r = Some {| wrapper.Stream_s := str |})
        /\ (r = (None, None) <->
            exists e,
              fst (quic.answer E (quic.Conn_AcceptStream (wrapper.Session_s s)
                                    tenSeconds) st) = inr e
              /\ strings.HasPrefix (quic.Error_text e) "Application error 0x0" = true))
    /\
    (exists r,
        outcomeOf (exec E (wrapper.AcceptUniStream s) st) = Returned r
        /\ (fst r <> None -> snd r = None)
        /\ (fst r <> None <->
            exists str,
              fst (quic.answer E (quic.Conn_AcceptUniStream (wrapper.Session_s s)
                                    tenSeconds) st) = inl str
              /\ fst r = Some {| wrapper.ReadableStream_s := str |})
        /\ (r = (None, None) <->
            exists e,
              fst (quic.answer E (quic.Conn_AcceptUniStream (wrapper.Session_s s)
                                    tenSeconds) st) = inr e
              /\ strings.HasPrefix (quic.Error_text e) "Application error 0x0" = true)).
Proof.
  intros E st s.
  rewrite exec_AcceptStream, exec_AcceptUniStream. cbv zeta.
  split.
  - destruct (quic.answer E (quic.Conn_AcceptStream _ _) st) as [[str | e] st'];
      unfold outcomeOf; cbn [fst snd]; eexists; (split; [ reflexivity | ]).
    + cbn [fst snd]. repeat split; try discriminate.
      * intros _. now exists str.
      * intros (e & He & _). discriminate.
    + destruct (closedWithoutError e) eqn:Hc; cbn [fst snd];
        repeat split; try congruence.
      * intros (str & Hs & _). discriminate.
      * intros _. exists e. now rewrite closedWithoutError_text.
      * intros (str & Hs & _). discriminate.
      * intros (e' & [= <-] & He'). rewrite closedWithoutError_text in He'.
        congruence.
  - destruct (quic.answer E (quic.Conn_AcceptUniStream _ _) st) as [[str | e] st'];
      unfold outcomeOf; cbn [fst snd]; eexists; (split; [ reflexivity | ]).
    + cbn [fst snd]. repeat split; try discriminate.
      * intros _. now exists str.
      * intros (e & He & _). discriminate.
    + destruct (closedWithoutError e) eqn:Hc; cbn [fst snd];
        repeat split; try congruence.
      * intros (str & Hs & _). discriminate.
      * intros _. exists e. now rewrite closedWithoutError_text.
      * intros (str & Hs & _). discriminate.
      * intros (e' & [= <-] & He'). rewrite closedWithoutError_text in He'.
        congruence.
Qed.

Lemma X2_accept_result_shape_witness :
  exists e : quic.Error,
    fst (quic.answer (scripted (failing closedByPeer))
           (quic.Conn_AcceptStream (wrapper.Session_s aSession) tenSeconds) tt)
      = inr e
    /\ strings.HasPrefix (quic.Error_text e) "Application error 0x0" = true.
Proof.
  destruct (proj1 (X2_accept_result_shape (scripted (failing closedByPeer)) tt aSession))
    as (r & Hout & _ & _ & Hnil).
  apply Hnil.
  vm_compute in Hout. injection Hout as <-. reflexivity.
Defined.

(** X3.  The construction operations panic on nothing but a missing
    certificate.  Dial, Server and Listen panic exactly when the
    configuration is nil or its certificate is nil, whatever the engine
    answers; Client panics exactly when, in addition, the connection
    reports a remote address. *)
Theorem X3_construction_panics_only_without_certificate :
  forall (E : quic.Engine) (st : quic.State E) (conn : net.Conn) (addr : string)
         (config : option wrapper.Config) (p : panic),
    (outcomeOf (exec E (wrapper.Dial addr config) st) = Panicked p
       <-> lacksCertificate config = true)
    /\ (outcomeOf (exec E (wrapper.Server conn config) st) = Panicked p
       <-> lacksCertificate config = true)
    /\ (outcomeOf (exec E (wrapper.Listen addr config) st) = Panicked p
       <-> lacksCertificate config = true)
    /\ (outcomeOf (exec E (wrapper.Client conn config) st) = Panicked p
       <-> lacksCertificate config = true /\ net.RemoteAddr conn <> None).
Proof.
  intros E st conn addr config [].
  rewrite exec_Client, exec_Dial, exec_Server, exec_Listen. cbv zeta.
  rewrite (getTLSConfig_panics config).
  destruct (wrapper.getTLSConfig config) as [t | []];
    destruct (net.RemoteAddr conn) as [rAddr |];
    repeat match goal with
           | |- context [quic.answer E ?call st] =>
               destruct (quic.answer E call st)
           end;
    unfold outcomeOf; cbn [fst];
    repeat split; try discriminate; try reflexivity; try tauto;
    intros [H1 H2]; congruence.
Qed.

Lemma X3_construction_panics_witness :
  lacksCertificate (Some aConfig) = false
  /\ outcomeOf (exec (scripted (failing quic.DeadlineExceeded))
                     (wrapper.Listen ":4433" (Some noCertificate)) tt)
     = Panicked nilPointerDereference.
Proof.
  split; [ reflexivity | ].
  apply (proj2 (proj1 (proj2 (proj2
           (X3_construction_panics_only_without_certificate
              (scripted (failing quic.DeadlineExceeded)) tt connWithAddr ":4433"
              (Some noCertificate) nilPointerDereference))))).
  reflexivity.
Defined.

(** ** Opening streams *)

Lemma execOpen_OpenStream (E : conn.Engine) (st : conn.State E) (s : wrapper.Session) :
  execOpen E (OpenStream s) st
  = let c := conn.OpenStream (wrapper.Session_s s) in
    let (r, st') := conn.answer E c st in
    (match r with
     | inl str => (Some {| wrapper.Stream_s := str |}, None)
     | inr e => (None, Some (wrapper.engineError e))
     end, [c], st').
Proof.
  unfold OpenStream. cbn [execOpen]. cbv zeta.
  destruct (conn.answer E _ st) as [[str | e] st']; reflexivity.
Qed.

Lemma execOpen_OpenUniStream (E : conn.Engine) (st : conn.State E) (s : wrapper.Session) :
  execOpen E (OpenUniStream s) st
  = let c := conn.OpenUniStream (wrapper.Session_s s) in
    let (r, st') := conn.answer E c st in
    (match r with
     | inl str => (Some {| WritableStream_s := str |}, None)
     | inr e => (None, Some (wrapper.engineError e))
     end, [c], st').
Proof.
  unfold OpenUniStream. cbn [execOpen]. cbv zeta.
  destruct (conn.answer E _ st) as [[str | e] st']; reflexivity.
Qed.

(** X4.  OpenStream and OpenUniStream hand every error of the engine back
    unchanged, also the application error with code 0 for which
    AcceptStream returns (nil, nil); and they always return exactly one of
    a stream and an error. *)
Theorem X4_open_propagates_every_error :
  forall (E : conn.Engine) (st : conn.State E) (A : quic.Engine)
         (sa sa' : quic.State A) (s : wrapper.Session) (e : quic.Error),
    exactlyOne (fst (fst (execOpen E (OpenStream s) st))) = true
    /\ exactlyOne (fst (fst (execOpen E (OpenUniStream s) st))) = true
    /\ (fst (conn.answer E (conn.OpenStream (wrapper.Session_s s)) st) = inr e ->
        fst (fst (execOpen E (OpenStream s) st))
        = (None, Some (wrapper.engineError e)))
    /\ (fst (conn.answer E (conn.OpenUniStream (wrapper.Session_s s)) st) = inr e ->
        fst (fst (execOpen E (OpenUniStream s) st))
        = (None, Some (wrapper.engineError e)))
    /\ (closedWithoutError e = true ->
        quic.answer A (quic.Conn_AcceptStream (wrapper.Session_s s) tenSeconds) sa
          = (inr e, sa') ->
        outcomeOf (exec A (wrapper.AcceptStream s) sa) = Returned (None, None)).
Proof.
  intros E st A sa sa' s e.
  rewrite execOpen_OpenStream, execOpen_OpenUniStream. cbv zeta.
  destruct (conn.answer E (conn.OpenStream _) st) as [[str | e1] st1];
    destruct (conn.answer E (conn.OpenUniStream _) st) as [[str2 | e2] st2];
    cbn [fst];
    (split; [ reflexivity | split; [ reflexivity | ] ]);
    (split; [ try discriminate; intros [= ->]; reflexivity | ]);
    (split; [ try discriminate; intros [= ->]; reflexivity | ]);
    intros Hc Hans; rewrite exec_AcceptStream; cbv zeta; rewrite Hans, Hc;
    reflexivity.
Qed.

Lemma X4_open_propagates_witness :
  fst (fst (execOpen (refusing closedLocally) (OpenStream aSession) tt))
    = (None, Some (wrapper.engineError closedLocally))
  /\ outcomeOf (exec (scripted (failing closedLocally))
                     (wrapper.AcceptStream aSession) tt)
     = Returned (None, None).
Proof.
  destruct (X4_open_propagates_every_error
              (refusing closedLocally) tt (scripted (failing closedLocally)) tt tt
              aSession closedLocally)
    as (_ & _ & Hopen & _ & Hacc).
  split; [ exact (Hopen eq_refl) | exact (Hacc eq_refl eq_refl) ].
Defined.

(** ** Closing on one side, accepting on the other *)

(** X5.  The code passed to CloseWithError decides what the peer's
    AcceptStream and AcceptUniStream return.  When the peer's engine
    reports the closure with the code and the reason that the closing side
    sent, the peer's accept returns (nil, nil) for code 0, whatever the
    error value given as reason, and returns the application error with
    that code and reason for every other 16-bit code. *)
Theorem X5_close_code_decides_peer_accept :
  forall (E P : quic.Engine) (st : quic.State E) (sp sp' : quic.State P)
         (s peer : wrapper.Session) (code : N) (err : option wrapper.error)
         (c : quic.Call) (e : quic.Error),
    (code < 2 ^ 16)%N ->
    In c (callsOf (exec E (wrapper.CloseWithError s code err) st)) ->
    closureSeenByPeer c = Some e ->
    e = quic.ApplicationError true code (reasonOf err)
    /\ (quic.answer P (quic.Conn_AcceptStream (wrapper.Session_s peer) tenSeconds) sp
          = (inr e, sp') ->
        outcomeOf (exec P (wrapper.AcceptStream peer) sp)
        = Returned (if (code =? 0)%N then (None, None)
                    else (None, Some (wrapper.engineError e))))
    /\ (quic.answer P (quic.Conn_AcceptUniStream (wrapper.Session_s peer) tenSeconds) sp
          = (inr e, sp') ->
        outcomeOf (exec P (wrapper.AcceptUniStream peer) sp)
        = Returned (if (code =? 0)%N then (None, None)
                    else (None, Some (wrapper.engineError e)))).
Proof.
  intros E P st sp sp' s peer code err c e Hcode Hin Hseen.
  rewrite exec_CloseWithError, (ApplicationErrorCode_uint16 code Hcode) in Hin.
  cbv zeta in Hin. unfold callsOf in Hin.
  destruct (quic.answer E _ st) as [r st'] in Hin. cbn [fst snd In] in Hin.
  destruct Hin as [<- | []]. cbn [closureSeenByPeer] in Hseen.
  injection Hseen as <-.
  split; [ reflexivity | split ]; intros Hans.
  - rewrite exec_AcceptStream. cbv zeta. rewrite Hans. reflexivity.
  - rewrite exec_AcceptUniStream. cbv zeta. rewrite Hans. reflexivity.
Qed.

Lemma X5_close_code_decides_witness :
  outcomeOf (exec (scripted (failing closedByPeer)) (wrapper.AcceptStream aSession) tt)
  = Returned (None, None).
Proof.
  refine (proj1 (proj2 (X5_close_code_decides_peer_accept
                          (scripted (succeeding 0)) (scripted (failing closedByPeer))
                          tt tt tt aSession aSession 0 (Some wrapper.io_EOF)
                          (quic.Conn_CloseWithError 1%nat 0 "EOF") closedByPeer
                          eq_refl _ eq_refl)) eq_refl).
  left; reflexivity.
Defined.

(** ** What a returned session or listener stands for *)

(** X6.  Client and Dial return a session only when the configuration
    carries a certificate and the engine's dial, the one call made,
    succeeded; the session then holds the connection the engine made.
    Client dials the remote address that the connection reports, over a
    conduit laid over that connection. *)
Theorem X6_session_only_from_successful_dial :
  forall (E : quic.Engine) (st st' : quic.State E) (conn : net.Conn) (addr : string)
         (config : option wrapper.Config) (s : wrapper.Session)
         (err : option wrapper.error) (calls : list quic.Call),
    (exec E (wrapper.Client conn config) st = (Returned (Some s, err), calls, st') ->
     exists (rAddr : net.Addr) (t : tls.Config) (pconn : net.PacketConn),
       net.RemoteAddr conn = Some rAddr
       /\ net.carrier pconn = conn
       /\ wrapper.getTLSConfig config = Returned t
       /\ calls = [quic.Dial tenSeconds pconn rAddr t wrapper.getDefaultQuicConfig]
       /\ quic.answer E (quic.Dial tenSeconds pconn rAddr t
                           wrapper.getDefaultQuicConfig) st
          = (inl (wrapper.Session_s s), st')
       /\ err = None)
    /\
    (exec E (wrapper.Dial addr config) st = (Returned (Some s, err), calls, st') ->
     exists t : tls.Config,
       wrapper.getTLSConfig config = Returned t
       /\ calls = [quic.DialAddr tenSeconds addr t wrapper.getDefaultQuicConfig]
       /\ quic.answer E (quic.DialAddr tenSeconds addr t
                           wrapper.getDefaultQuicConfig) st
          = (inl (wrapper.Session_s s), st')
       /\ err = None).
Proof.
  intros E st st' conn addr config s err calls.
  rewrite exec_Client, exec_Dial. cbv zeta. split.
  - destruct (net.RemoteAddr conn) as [rAddr |]; [ | discriminate ].
    destruct (wrapper.getTLSConfig config) as [t | p]; [ | discriminate ].
    destruct (quic.answer E _ st) as [[h | e] st1] eqn:Hans; cbn [sessionOf];
      [ | discriminate ].
    intros [= <- <- <- <-].
    exists rAddr, t, (wrapper.newFakePacketConn conn).
    repeat split. exact Hans.
  - destruct (wrapper.getTLSConfig config) as [t | p]; [ | discriminate ].
    destruct (quic.answer E _ st) as [[h | e] st1] eqn:Hans; cbn [sessionOf];
      [ | discriminate ].
    intros [= <- <- <- <-].
    exists t. repeat split. exact Hans.
Qed.

Lemma X6_session_only_witness :
  exists t : tls.Config,
    wrapper.getTLSConfig (Some aConfig) = Returned t
    /\ [quic.DialAddr tenSeconds "192.0.2.1:4433" aTLSConfig wrapper.getDefaultQuicConfig]
       = [quic.DialAddr tenSeconds "192.0.2.1:4433" t wrapper.getDefaultQuicConfig]
    /\ quic.answer (scripted (succeeding 7))
         (quic.DialAddr tenSeconds "192.0.2.1:4433" t wrapper.getDefaultQuicConfig) tt
       = (inl 7%nat, tt)
    /\ @None wrapper.error = None.
Proof.
  exact (proj2 (X6_session_only_from_successful_dial
                  (scripted (succeeding 7)) tt tt connWithAddr "192.0.2.1:4433"
                  (Some aConfig) {| wrapper.Session_s := 7%nat |} None
                  [quic.DialAddr tenSeconds "192.0.2.1:4433" aTLSConfig
                                 wrapper.getDefaultQuicConfig])
               eq_refl).
Defined.

(** X7.  Server and Listen return a listener only when the configuration
    carries a certificate and the engine's listen call, the one call made,
    succeeded; the listener then holds the engine's listener.  Server
    listens on a conduit laid over the connection it was given. *)
Theorem X7_listener_only_from_successful_listen :
  forall (E : quic.Engine) (st st' : quic.State E) (conn : net.Conn) (addr : string)
         (config : option wrapper.Config) (l : wrapper.Listener)
         (err : option wrapper.error) (calls : list quic.Call),
    (exec E (wrapper.Server conn config) st = (Returned (Some l, err), calls, st') ->
     exists (t : tls.Config) (pconn : net.PacketConn),
       net.carrier pconn = conn
       /\ wrapper.getTLSConfig config = Returned t
       /\ calls = [quic.Listen pconn t wrapper.getDefaultQuicConfig]
       /\ quic.answer E (quic.Listen pconn t wrapper.getDefaultQuicConfig) st
          = (inl (wrapper.Listener_l l), st')
       /\ err = None)
    /\
    (exec E (wrapper.Listen addr config) st = (Returned (Some l, err), calls, st') ->
     exists t : tls.Config,
       wrapper.getTLSConfig config = Returned t
       /\ calls = [quic.ListenAddr addr t wrapper.getDefaultQuicConfig]
       /\ quic.answer E (quic.ListenAddr addr t wrapper.getDefaultQuicConfig) st
          = (inl (wrapper.Listener_l l), st')
       /\ err = None).
Proof.
  intros E st st' conn addr config l err calls.
  rewrite exec_Server, exec_Listen. cbv zeta. split.
  - destruct (wrapper.getTLSConfig config) as [t | p]; [ | discriminate ].
    destruct (quic.answer E _ st) as [[h | e] st1] eqn:Hans; cbn [listenerOf];
      [ | discriminate ].
    intros [= <- <- <- <-].
    exists t, (wrapper.newFakePacketConn conn).
    repeat split. exact Hans.
  - destruct (wrapper.getTLSConfig config) as [t | p]; [ | discriminate ].
    destruct (quic.answer E _ st) as [[h | e] st1] eqn:Hans; cbn [listenerOf];
      [ | discriminate ].
    intros [= <- <- <- <-].
    exists t. repeat split. exact Hans.
Qed.

Lemma X7_listener_only_witness :
  exists t : tls.Config,
    wrapper.getTLSConfig (Some aConfig) = Returned t
    /\ [quic.ListenAddr ":4433" aTLSConfig wrapper.getDefaultQuicConfig]
       = [quic.ListenAddr ":4433" t wrapper.getDefaultQuicConfig]
    /\ quic.answer (scripted (succeeding 7))
         (quic.ListenAddr ":4433" t wrapper.getDefaultQuicConfig) tt
       = (inl 7%nat, tt)
    /\ @None wrapper.error = None.
Proof.
  exact (proj2 (X7_listener_only_from_successful_listen
                  (scripted (succeeding 7)) tt tt connWithAddr ":4433"
                  (Some aConfig) {| wrapper.Listener_l := 7%nat |} None
                  [quic.ListenAddr ":4433" aTLSConfig wrapper.getDefaultQuicConfig])
               eq_refl).
Defined.

(** ** What the derived TLS parameters keep of the configuration *)

(** X8.  Nothing the TLS builder reads is lost.  From a derived parameter
    set one reads back the encoded certificate, the key and the flag of the
    configuration, so two configurations that derive the same set have the
    same encoded certificate, key and flag. *)
Theorem X8_tls_config_keeps_its_input :
  forall (c1 c2 : option wrapper.Config) (t : tls.Config),
    wrapper.getTLSConfig c1 = Returned t ->
    readBack t = builderInput c1
    /\ (wrapper.getTLSConfig c2 = Returned t -> builderInput c1 = builderInput c2).
Proof.
  intros c1 c2 t H1.
  assert (Hread : forall c, wrapper.getTLSConfig c = Returned t ->
                            readBack t = builderInput c).
  { intros c H. destruct (getTLSConfig_returns c t H) as (cert & key & skip & ->).
    rewrite getTLSConfig_valid in H. injection H as <-. reflexivity. }
  split; [ apply Hread, H1 | ].
  intros H2. rewrite <- (Hread c1 H1). apply Hread, H2.
Qed.

Lemma X8_tls_config_keeps_witness :
  readBack aTLSConfig = builderInput (Some aConfig)
  /\ builderInput (Some aConfig) = builderInput (Some sameConfig)
  /\ wrapper.getTLSConfig (Some otherConfig) <> Returned aTLSConfig.
Proof.
  destruct (X8_tls_config_keeps_its_input (Some aConfig) (Some sameConfig)
              aTLSConfig eq_refl) as [Hread Hsame].
  split; [ exact Hread | split; [ exact (Hsame eq_refl) | ] ].
  intros H.
  pose proof (proj2 (X8_tls_config_keeps_its_input (Some aConfig) (Some otherConfig)
                       aTLSConfig eq_refl) H) as Heq.
  discriminate Heq.
Defined.

(** ** Waits without a deadline, and answers past the deadline *)

Lemma await_without_context (sch : quic.Schedule) (c : quic.Call) :
  quic.contextOf c = None ->
  quic.await sch c
  = match sch c with
    | Some (d, r) => quic.Done d r
    | None => quic.Blocked
    end.
Proof.
  intros Hctx. unfold quic.await. rewrite Hctx. reflexivity.
Qed.

Lemma await_in_time (sch : quic.Schedule) (c : quic.Call) (late : quic.Resp c)
      (d : time.Duration) (r : quic.Resp c) :
  quic.contextOf c = Some tenSeconds ->
  quic.expired c = Some late ->
  sch c = Some (d, r) ->
  quic.await sch c
  = if Z.leb d (10 * time.Second) then quic.Done d r
    else quic.Done (10 * time.Second) late.
Proof.
  intros Hctx Hlate Hsch. unfold quic.await. rewrite Hctx, Hlate, Hsch.
  reflexivity.
Qed.

Lemma timed_Listen (sch : quic.Schedule) (addr : string)
      (config : option wrapper.Config) :
  timed sch (wrapper.Listen addr config)
  = match wrapper.getTLSConfig config with
    | Panicked p => quic.Done 0 (Panicked p)
    | Returned t =>
        match sch (quic.ListenAddr addr t wrapper.getDefaultQuicConfig) with
        | None => quic.Blocked
        | Some (d, r) => quic.Done d (Returned (listenerOf r))
        end
    end.
Proof.
  unfold wrapper.Listen, call.
  destruct (wrapper.getTLSConfig config) as [t | p]; cbn [eval timed bind];
    [ | reflexivity ].
  rewrite await_without_context by reflexivity.
  destruct (sch _) as [[d [l | e]] |]; cbn [timed]; rewrite ?Z.add_0_r; reflexivity.
Qed.

Lemma timed_Server (sch : quic.Schedule) (conn : net.Conn)
      (config : option wrapper.Config) :
  timed sch (wrapper.Server conn config)
  = match wrapper.getTLSConfig config with
    | Panicked p => quic.Done 0 (Panicked p)
    | Returned t =>
        match sch (quic.Listen (wrapper.newFakePacketConn conn) t
                               wrapper.getDefaultQuicConfig) with
        | None => quic.Blocked
        | Some (d, r) => quic.Done d (Returned (listenerOf r))
        end
    end.
Proof.
  unfold wrapper.Server, call.
  destruct (wrapper.getTLSConfig config) as [t | p]; cbn [eval timed bind];
    [ | reflexivity ].
  cbv zeta. rewrite await_without_context by reflexivity.
  destruct (sch _) as [[d [l | e]] |]; cbn [timed]; rewrite ?Z.add_0_r; reflexivity.
Qed.

Lemma timed_CloseWithError (sch : quic.Schedule) (s : wrapper.Session)
      (code : N) (err : option wrapper.error) :
  timed sch (wrapper.CloseWithError s code err)
  = match sch (quic.Conn_CloseWithError (wrapper.Session_s s)
                 (quic.ApplicationErrorCode code) (reasonOf err)) with
    | None => quic.Blocked
    | Some (d, r) => quic.Done d (Returned (option_map wrapper.engineError r))
    end.
Proof.
  unfold wrapper.CloseWithError, call. cbn [timed bind]. cbv zeta.
  replace (match err with Some err' => wrapper.Error err' | None => "nil" end)
    with (reasonOf err) by (destruct err; reflexivity).
  rewrite await_without_context by reflexivity.
  destruct (sch _) as [[d r] |]; cbn [timed]; rewrite ?Z.add_0_r; reflexivity.
Qed.

(** X9.  Server, Listen, CloseWithError and Close set no deadline of their
    own.  With a certificate in the configuration, each returns when the
    engine answers, however late, also after more than ten seconds, and
    does not return as long as the engine does not answer. *)
Theorem X9_no_deadline_on_listen_and_close :
  forall (sch : quic.Schedule) (conn : net.Conn) (addr : string)
         (config : option wrapper.Config) (t : tls.Config)
         (s : wrapper.Session) (code : N) (err : option wrapper.error),
    wrapper.getTLSConfig config = Returned t ->
    (timed sch (wrapper.Server conn config)
     = match sch (quic.Listen (wrapper.newFakePacketConn conn) t
                              wrapper.getDefaultQuicConfig) with
       | None => quic.Blocked
       | Some (d, r) => quic.Done d (Returned (listenerOf r))
       end)
    /\ (timed sch (wrapper.Listen addr config)
        = match sch (quic.ListenAddr addr t wrapper.getDefaultQuicConfig) with
          | None => quic.Blocked
          | Some (d, r) => quic.Done d (Returned (listenerOf r))
          end)
    /\ (timed sch (wrapper.CloseWithError s code err)
        = match sch (quic.Conn_CloseWithError (wrapper.Session_s s)
                       (quic.ApplicationErrorCode code) (reasonOf err)) with
          | None => quic.Blocked
          | Some (d, r) => quic.Done d (Returned (option_map wrapper.engineError r))
          end)
    /\ (timed sch (wrapper.Close s)
        = match sch (quic.Conn_CloseWithError (wrapper.Session_s s) 0 "EOF") with
          | None => quic.Blocked
          | Some (d, r) => quic.Done d (Returned (option_map wrapper.engineError r))
          end).
Proof.
  intros sch conn addr config t s code err Ht.
  rewrite timed_Server, timed_Listen, timed_CloseWithError, Ht.
  repeat split.
  unfold wrapper.Close. rewrite timed_CloseWithError. reflexivity.
Qed.

Lemma X9_no_deadline_witness :
  timed (answering (60 * time.Second) (succeeding 7))
        (wrapper.Listen ":4433" (Some aConfig))
    = quic.Done 60000000000 (Returned (Some {| wrapper.Listener_l := 7%nat |}, None))
  /\ timed silent (wrapper.Close aSession) = quic.Blocked.
Proof.
  destruct (X9_no_deadline_on_listen_and_close
              (answering (60 * time.Second) (succeeding 7)) connWithAddr ":4433"
              (Some aConfig) aTLSConfig aSession 0 None eq_refl)
    as (_ & Hlisten & _ & _).
  destruct (X9_no_deadline_on_listen_and_close
              silent connWithAddr ":4433"
              (Some aConfig) aTLSConfig aSession 0 None eq_refl)
    as (_ & _ & _ & Hclose).
  split; [ exact Hlisten | exact Hclose ].
Defined.

(** X10.  An answer of the engine that comes by the deadline is returned
    at the moment it comes, without delay added; an answer that would come
    later than ten seconds is never returned: AcceptStream,
    AcceptUniStream, Dial and Client then return the deadline error at ten
    seconds, even if the late answer is a stream or a connection. *)
Theorem X10_late_answers_are_dropped :
  forall (sch : quic.Schedule) (s : wrapper.Session) (conn : net.Conn)
         (rAddr : net.Addr) (addr : string) (config : option wrapper.Config)
         (t : tls.Config) (d : time.Duration),
    wrapper.getTLSConfig config = Returned t ->
    net.RemoteAddr conn = Some rAddr ->
    (forall r,
        sch (quic.Conn_AcceptStream (wrapper.Session_s s) tenSeconds) = Some (d, inl r) ->
        timed sch (wrapper.AcceptStream s)
        = if Z.leb d (10 * time.Second)
          then quic.Done d (Returned (Some {| wrapper.Stream_s := r |}, None))
          else quic.Done (10 * time.Second) timedOut)
    /\ (forall r,
        sch (quic.Conn_AcceptUniStream (wrapper.Session_s s) tenSeconds) = Some (d, inl r) ->
        timed sch (wrapper.AcceptUniStream s)
        = if Z.leb d (10 * time.Second)
          then quic.Done d (Returned (Some {| wrapper.ReadableStream_s := r |}, None))
          else quic.Done (10 * time.Second) timedOut)
    /\ (forall r,
        sch (quic.DialAddr tenSeconds addr t wrapper.getDefaultQuicConfig) = Some (d, inl r) ->
        timed sch (wrapper.Dial addr config)
        = if Z.leb d (10 * time.Second)
          then quic.Done d (Returned (Some {| wrapper.Session_s := r |}, None))
          else quic.Done (10 * time.Second) timedOut)
    /\ (forall r,
        sch (quic.Dial tenSeconds (wrapper.newFakePacketConn conn) rAddr t
                       wrapper.getDefaultQuicConfig) = Some (d, inl r) ->
        timed sch (wrapper.Client conn config)
        = if Z.leb d (10 * time.Second)
          then quic.Done d (Returned (Some {| wrapper.Session_s := r |}, None))
          else quic.Done (10 * time.Second) timedOut).
Proof.
  intros sch s conn rAddr addr config t d Ht Haddr.
  rewrite timed_AcceptStream, timed_AcceptUniStream, timed_Dial, timed_Client,
    Ht, Haddr.
  repeat split; intros r Hsch;
    match type of Hsch with
    | sch ?c = _ =>
        rewrite (await_in_time sch c (inr quic.DeadlineExceeded) d (inl r)
                   eq_refl eq_refl Hsch)
    end;
    destruct (Z.leb d (10 * time.Second)); rewrite ?Z.add_0_r; reflexivity.
Qed.

Lemma X10_late_answers_witness :
  timed (answering (11 * time.Second) (succeeding 5)) (wrapper.AcceptStream aSession)
    = quic.Done 10000000000 timedOut
  /\ timed (answering (3 * time.Second) (succeeding 5))
           (wrapper.Client connWithAddr (Some aConfig))
     = quic.Done 3000000000 (Returned (Some {| wrapper.Session_s := 5%nat |}, None)).
Proof.
  split.
  - exact (proj1 (X10_late_answers_are_dropped
                    (answering (11 * time.Second) (succeeding 5)) aSession
                    connWithAddr anAddr "192.0.2.1:4433" (Some aConfig) aTLSConfig
                    (11 * time.Second) eq_refl eq_refl)
                 5%nat eq_refl).
  - exact (proj2 (proj2 (proj2 (X10_late_answers_are_dropped
                    (answering (3 * time.Second) (succeeding 5)) aSession
                    connWithAddr anAddr "192.0.2.1:4433" (Some aConfig) aTLSConfig
                    (3 * time.Second) eq_refl eq_refl)))
                 5%nat eq_refl).
Defined.
